(** * linestring_simplifier: a shallow embedding of the simplification engine

    The development follows the three source modules:
    - [geometry_utils.py]: validation and path length are embedded as
      written; the four spherical primitives (haversine distance, bearing,
      bearing change, cross-track distance) are floating-point code over
      the C math library and are taken as an interface ([Externals]), so
      every result below holds for any implementation of them;
    - [algorithms.py]: Douglas-Peucker, the corner and curve detectors and
      the adaptive selector;
    - [core.py]: the facade [simplify_linestring], the minimum-required
      estimate and the multi-budget preview.

    Python [int] is [Z], Python [float] is the kernel's binary64 [float],
    a Python [set] of ints is a [gset Z], decoded JSON is the tree [json].
    The recursion of [dp_recursive] is bounded by an explicit depth
    ([fuel]); running out of it is Python's [RecursionError]. *)

From Stdlib Require Import ZArith Lia Floats.
From stdpp Require Import base option list list_numbers sets gmap strings sorting pretty.

Set Warnings "-register-all,-inexact-float,-clear-no-such-hyp".
Local Open Scope Z_scope.

(** ** Python built-ins used by the source *)

Module Py.

(** [len(l)] *)
Definition len {A} (l : list A) : Z := Z.of_nat (length l).

(** [range(a, b)] *)
Definition range (a b : Z) : list Z := seqZ a (b - a).

(** [l[i]], with Python's negative indices; [None] is [IndexError]. *)
Definition index {A} (l : list A) (i : Z) : option A :=
  if bool_decide (0 ≤ i) then l !! Z.to_nat i
  else if bool_decide (- len l ≤ i) then l !! Z.to_nat (len l + i)
  else None.

(** [l[:k]], with Python's negative bound. *)
Definition slice_to {A} (l : list A) (k : Z) : list A :=
  if bool_decide (0 ≤ k) then take (Z.to_nat k) l
  else take (Z.to_nat (len l + k)) l.

(** [sorted(list(s))] for a set of ints. *)
Definition sorted (s : gset Z) : list Z := merge_sort Z.le (elements s).

(** [set(l)] *)
Definition set (l : list Z) : gset Z := list_to_set l.

(** [len(s)] for a set. *)
Definition card (s : gset Z) : Z := Z.of_nat (size s).

(** [float(z)]: the int as a binary64, rounded to nearest even. *)
Definition to_float (z : Z) : float := SF2Prim (binary_normalize prec emax z 0 false).

End Py.

(** ** Decoded JSON values

    A JSON number is kept as the float it denotes: the source only compares
    coordinates with bounds and feeds them to float arithmetic. *)

Inductive json :=
| JNull
| JBool (b : bool)
| JNum (x : float)
| JStr (s : string)
| JArr (items : list json)
| JObj (fields : gmap string json).

(** [isinstance(x, (int, float))]: Python's [bool] is a subclass of [int]. *)
Definition as_number (v : json) : option float :=
  match v with
  | JNum x => Some x
  | JBool b => Some (if b then 1%float else 0%float)
  | _ => None
  end.

(** [c[k]] for a coordinate entry, read as a float.  On an entry that is not
    a list with a number at [k] Python raises; the model yields [nan].  The
    facade validates every entry before any such access. *)
Definition component (c : json) (k : nat) : float :=
  match c with
  | JArr items => default nan (items !! k ≫= as_number)
  | _ => nan
  end.

(** [coordinates[i]] *)
Definition coord_at (coordinates : list json) (i : Z) : json :=
  default JNull (Py.index coordinates i).

Definition lon_at (coordinates : list json) (i : Z) : float := component (coord_at coordinates i) 0.
Definition lat_at (coordinates : list json) (i : Z) : float := component (coord_at coordinates i) 1.

(** ** exceptions.py *)

Inductive exn :=
| InvalidGeometryError (message : string)
| InsufficientCoordinatesError (message : string) (minimum_required provided_limit : Z).

Definition exn_message (e : exn) : string :=
  match e with
  | InvalidGeometryError m => m
  | InsufficientCoordinatesError m _ _ => m
  end.

Definition exn_type_name (e : exn) : string :=
  match e with
  | InvalidGeometryError _ => "InvalidGeometryError"
  | InsufficientCoordinatesError _ _ _ => "InsufficientCoordinatesError"
  end.

(** What a call of the facade does: it returns, raises one of the library's
    exceptions, or exhausts the recursion depth inside Douglas-Peucker. *)
Inductive outcome (A : Type) :=
| Return (a : A)
| Raise (e : exn)
| RecursionError.
Arguments Return {A} a.
Arguments Raise {A} e.
Arguments RecursionError {A}.

(** ** The interface to floating-point and decoding code

    [haversine_distance], [calculate_bearing], [calculate_bearing_change]
    and [point_to_line_distance] are the functions of [geometry_utils.py]
    with these names; [float_pow x i] is [x ** i]; [format_1f x] is the
    text of [x] under the format [.1f]; [json_loads] is [json.loads],
    giving the decoded value or the decoder's error text. *)

Class Externals := {
  haversine_distance : float → float → float → float → float;
  calculate_bearing : float → float → float → float → float;
  calculate_bearing_change : float → float → float;
  point_to_line_distance : float * float → float * float → float * float → float;
  float_pow : float → Z → float;
  format_1f : float → string;
  json_loads : string → json + string;
}.

(** ** geometry_utils.py *)

Section GeometryUtils.
Context `{Externals}.

Definition valid_coordinate (coord : json) : bool :=
  match coord with
  | JArr items =>
      match items with
      | x0 :: x1 :: _ =>
          match as_number x0, as_number x1 with
          | Some lon, Some lat =>
              (-180 <=? lon)%float && (lon <=? 180)%float
              && (-90 <=? lat)%float && (lat <=? 90)%float
          | _, _ => false
          end
      | _ => false
      end
  | _ => false
  end.

Definition validate_geojson_linestring (geometry : json) : bool :=
  match geometry with
  | JObj fields =>
      match fields !! "type" with
      | Some (JStr "LineString") =>
          match default (JArr []) (fields !! "coordinates") with
          | JArr coordinates =>
              bool_decide (2 ≤ Py.len coordinates) && forallb valid_coordinate coordinates
          | _ => false
          end
      | _ => false
      end
  | _ => false
  end.

Definition calculate_linestring_length (coordinates : list json) : float :=
  if bool_decide (Py.len coordinates < 2) then 0%float
  else
    foldl (λ total_length i,
             (total_length
              + haversine_distance (lat_at coordinates i) (lon_at coordinates i)
                                   (lat_at coordinates (i + 1)) (lon_at coordinates (i + 1)))%float)
          0%float (Py.range 0 (Py.len coordinates - 1)).

End GeometryUtils.

(** ** algorithms.py *)

Section Algorithms.
Context `{Externals}.

(** The [(lon, lat)] tuple built from [coordinates[i]]. *)
Definition point_at (coordinates : list json) (i : Z) : float * float :=
  (lon_at coordinates i, lat_at coordinates i).

(** The bearing of the segment from [coordinates[i]] to [coordinates[j]]. *)
Definition segment_bearing (coordinates : list json) (i j : Z) : float :=
  calculate_bearing (lat_at coordinates i) (lon_at coordinates i)
                    (lat_at coordinates j) (lon_at coordinates j).

(** *** douglas_peucker *)

(** One pass of the [for i in range(start + 1, end)] loop of [dp_recursive]:
    the state is [(max_distance, max_index)]. *)
Definition max_step (coordinates : list json) (start end_ : Z)
    (st : float * Z) (i : Z) : float * Z :=
  let distance :=
    point_to_line_distance (point_at coordinates i)
                           (point_at coordinates start) (point_at coordinates end_) in
  if (st.1 <? distance)%float then (distance, i) else st.

Definition find_max (coordinates : list json) (start end_ : Z) : float * Z :=
  foldl (max_step coordinates start end_) (0%float, start) (Py.range (start + 1) end_).

Fixpoint dp_recursive (fuel : nat) (coordinates : list json) (tolerance : float)
    (start end_ : Z) : option (gset Z) :=
  match fuel with
  | O => None
  | S fuel' =>
      if bool_decide (end_ - start ≤ 1) then Some {[start; end_]}
      else
        let '(max_distance, max_index) := find_max coordinates start end_ in
        if (tolerance <? max_distance)%float then
          left_points ← dp_recursive fuel' coordinates tolerance start max_index;
          right_points ← dp_recursive fuel' coordinates tolerance max_index end_;
          Some (left_points ∪ right_points)
        else Some {[start; end_]}
  end.

Definition douglas_peucker (fuel : nat) (coordinates : list json) (tolerance : float)
    : option (list Z) :=
  if bool_decide (Py.len coordinates ≤ 2) then Some (Py.range 0 (Py.len coordinates))
  else
    important_indices ← dp_recursive fuel coordinates tolerance 0 (Py.len coordinates - 1);
    Some (Py.sorted important_indices).

(** Two notions to reason about the scan of [dp_recursive].  The first is
    the [distance] it computes for the point at [i]. *)
Definition segment_distance (coordinates : list json) (start end_ i : Z) : float :=
  point_to_line_distance (point_at coordinates i)
                         (point_at coordinates start) (point_at coordinates end_).

(** The second says where the scan stops: at an index [j] strictly
    between the ends whose distance is above [0.0], above every earlier
    distance that [>] can tell from a smaller one, and not below any later
    distance. *)
Definition first_maximum (coordinates : list json) (start end_ j : Z) : Prop :=
  start < j < end_
  ∧ (0 <? segment_distance coordinates start end_ j)%float = true
  ∧ (∀ i, start < i < j →
       (segment_distance coordinates start end_ i
        <? segment_distance coordinates start end_ j)%float = true
       ∨ ∀ w, (w <? segment_distance coordinates start end_ i)%float = false)
  ∧ (∀ i, j < i < end_ →
       (segment_distance coordinates start end_ j
        <? segment_distance coordinates start end_ i)%float = false).

(** *** detect_corners *)

Definition bearing_change_at (coordinates : list json) (i : Z) : float :=
  let bearing_before := segment_bearing coordinates (i - 1) i in
  let bearing_after := segment_bearing coordinates i (i + 1) in
  abs (calculate_bearing_change bearing_before bearing_after).

Definition is_corner (coordinates : list json) (min_angle_change : float) (i : Z) : Prop :=
  Is_true (min_angle_change <=? bearing_change_at coordinates i)%float.

Definition detect_corners (coordinates : list json) (min_angle_change : float) : list Z :=
  if bool_decide (Py.len coordinates ≤ 2) then [0; Py.len coordinates - 1]
  else
    [0]
    ++ filter (is_corner coordinates min_angle_change) (Py.range 1 (Py.len coordinates - 1))
    ++ [Py.len coordinates - 1].

(** *** detect_curves *)

(** The inner loop over [j]: the cumulative bearing change of the window
    around [i]. *)
Definition window_step (coordinates : list json) (total_change : float) (j : Z) : float :=
  if bool_decide (j + 1 < Py.len coordinates) then
    if bool_decide (0 < j) then (total_change + bearing_change_at coordinates j)%float
    else total_change
  else total_change.

Definition window_change (coordinates : list json) (window_size i : Z) : float :=
  foldl (window_step coordinates) 0%float (Py.range (i - window_size + 1) (i + window_size)).

Definition is_curve_point (coordinates : list json) (window_size : Z)
    (curve_threshold : float) (i : Z) : Prop :=
  Is_true (curve_threshold <=? window_change coordinates window_size i)%float.

Definition detect_curves (coordinates : list json) (window_size : Z)
    (curve_threshold : float) : list Z :=
  if bool_decide (Py.len coordinates ≤ window_size * 2) then Py.range 0 (Py.len coordinates)
  else
    filter (is_curve_point coordinates window_size curve_threshold)
           (Py.range window_size (Py.len coordinates - window_size)).

(** *** adaptive_simplification *)

(** The critical set after the corner and curve steps (source lines 166-176). *)
Definition critical_set (coordinates : list json) (preserve_corners preserve_curves : bool)
    : gset Z :=
  let critical_points : gset Z := {[0; Py.len coordinates - 1]} in
  let critical_points :=
    if preserve_corners then critical_points ∪ Py.set (detect_corners coordinates 30)
    else critical_points in
  if preserve_curves then critical_points ∪ Py.set (detect_curves coordinates 5 45)
  else critical_points.

(** [[tolerance_start * (0.8 ** i) for i in range(20)]] *)
Definition tolerances : list float :=
  (λ i, (10 * float_pow 0.8 i)%float) <$> Py.range 0 20.

(** No tolerance of the fill stage is negative: what any sensible [**]
    gives, and what keeps [dp_recursive] from calling itself on the same
    range for ever. *)
Definition tolerances_nonnegative : Prop :=
  Forall (λ tolerance, (tolerance <? 0)%float = false) tolerances.

(** The [for tolerance in ...] loop with its [break]. *)
Fixpoint fill_loop (fuel : nat) (coordinates : list json) (max_points remaining_budget : Z)
    (critical_points : gset Z) (tols : list float) : option (gset Z) :=
  match tols with
  | [] => Some critical_points
  | tolerance :: rest =>
      dp_points ← douglas_peucker fuel coordinates tolerance;
      let all_points := critical_points ∪ Py.set dp_points in
      if bool_decide (Py.card all_points ≤ max_points) then
        let additional_points := Py.set dp_points ∖ critical_points in
        let points_to_add := Z.min remaining_budget (Py.card additional_points) in
        if bool_decide (0 < points_to_add) then
          let additional_sorted := Py.slice_to (Py.sorted additional_points) points_to_add in
          Some (critical_points ∪ Py.set additional_sorted)
        else Some critical_points
      else fill_loop fuel coordinates max_points remaining_budget critical_points rest
  end.

(** [len(final_points) >= min(len(coordinates), max_points * 0.8)] *)
Definition is_sufficient (final_count original_count max_points : Z) : bool :=
  let scaled := (Py.to_float max_points * 0.8)%float in
  let bound := if (scaled <? Py.to_float original_count)%float then scaled
               else Py.to_float original_count in
  (bound <=? Py.to_float final_count)%float.

Definition adaptive_simplification (fuel : nat) (coordinates : list json) (max_points : Z)
    (preserve_corners preserve_curves : bool) : option (list Z * bool) :=
  if bool_decide (Py.len coordinates ≤ max_points) then
    Some (Py.range 0 (Py.len coordinates), true)
  else
    let critical_points := critical_set coordinates preserve_corners preserve_curves in
    if bool_decide (max_points < Py.card critical_points) then
      let sorted_corners := detect_corners coordinates 60 in
      let critical_points : gset Z :=
        {[0; Py.len coordinates - 1]} ∪ Py.set (Py.slice_to sorted_corners (max_points - 2)) in
      Some (Py.sorted critical_points, false)
    else
      let remaining_budget := max_points - Py.card critical_points in
      critical_points ←
        (if bool_decide (0 < remaining_budget) then
           fill_loop fuel coordinates max_points remaining_budget critical_points tolerances
         else Some critical_points);
      let final_points := Py.sorted critical_points in
      Some (final_points,
            is_sufficient (Py.len final_points) (Py.len coordinates) max_points).

End Algorithms.

(** ** core.py *)

Record result := {
  geometry : json;
  original_count : Z;
  simplified_count : Z;
  reduction_ratio : float;
  length_preserved : float;
  warnings : list string;
  was_sufficient : bool;
}.

(** One value of the dictionary built by [get_simplification_preview]. *)
Inductive preview_entry :=
| Summary (simplified_count : Z) (reduction_ratio length_preserved : float)
          (was_sufficient : bool) (warning_count : Z)
| Failure (error error_type : string).

(** [geometry['coordinates']] of a validated geometry. *)
Definition geometry_coordinates (geometry : json) : list json :=
  match geometry with
  | JObj fields =>
      match fields !! "coordinates" with
      | Some (JArr coordinates) => coordinates
      | _ => []
      end
  | _ => []
  end.

Section Core.
Context `{Externals}.

Definition _calculate_minimum_required (coordinates : list json) : Z :=
  if bool_decide (Py.len coordinates ≤ 2) then Py.len coordinates
  else
    let essential_corners := detect_corners coordinates 90 in
    let minimum := Z.max 3 (Py.len essential_corners) in
    Z.min (minimum + 2) (Py.len coordinates).

(** The input parsing at the top of [simplify_linestring]: a [str] is
    decoded, anything else is deep-copied. *)
Definition parse_input (geojson_geometry : json) : exn + json :=
  match geojson_geometry with
  | JStr text =>
      match json_loads text with
      | inl geometry => inr geometry
      | inr e => inl (InvalidGeometryError ("Invalid JSON string: " +:+ e))
      end
  | _ => inr geojson_geometry
  end.

Definition insufficient_warning (max_coordinates : Z) : string :=
  "The specified max_coordinates (" +:+ pretty max_coordinates
  +:+ ") may be insufficient to properly represent this geometry. "
  +:+ "Consider increasing the limit.".

Definition underused_warning (simplified_count max_coordinates : Z) : string :=
  "Simplified geometry uses only " +:+ pretty simplified_count +:+ " of "
  +:+ pretty max_coordinates
  +:+ " allowed coordinates. The original geometry may be very simple.".

Definition length_warning (length_preserved : float) : string :=
  "Length preservation is " +:+ format_1f length_preserved
  +:+ "%. Consider increasing max_coordinates for better accuracy.".

Definition simplify_linestring (fuel : nat) (geojson_geometry : json) (max_coordinates : Z)
    (preserve_corners preserve_curves : bool)
    (min_angle_for_corners curve_detection_threshold : float) : outcome result :=
  match parse_input geojson_geometry with
  | inl e => Raise e
  | inr geometry =>
    if negb (validate_geojson_linestring geometry) then
      Raise (InvalidGeometryError "Input must be a valid GeoJSON LineString geometry")
    else
      let coordinates := geometry_coordinates geometry in
      let original_count := Py.len coordinates in
      if bool_decide (max_coordinates < 2) then
        Raise (InsufficientCoordinatesError
                 "max_coordinates must be at least 2 for a valid LineString"
                 2 max_coordinates)
      else if bool_decide (original_count ≤ max_coordinates) then
        Return {| geometry := geometry;
                  original_count := original_count;
                  simplified_count := original_count;
                  reduction_ratio := 0;
                  length_preserved := 100;
                  warnings := [];
                  was_sufficient := true |}
      else
        let original_length := calculate_linestring_length coordinates in
        match adaptive_simplification fuel coordinates max_coordinates
                                      preserve_corners preserve_curves with
        | None => RecursionError
        | Some (indices_to_keep, was_sufficient) =>
          let simplified_coordinates := coord_at coordinates <$> indices_to_keep in
          let simplified_geometry :=
            JObj (<["type" := JStr "LineString"]>
                    (<["coordinates" := JArr simplified_coordinates]> ∅)) in
          let simplified_count := Py.len simplified_coordinates in
          let reduction_ratio :=
            (Py.to_float (original_count - simplified_count)
             / Py.to_float original_count * 100)%float in
          let simplified_length := calculate_linestring_length simplified_coordinates in
          let length_preserved :=
            if (0 <? original_length)%float
            then (simplified_length / original_length * 100)%float
            else 100%float in
          let warnings_list :=
            (if was_sufficient then [] else [insufficient_warning max_coordinates])
            ++ (if (Py.to_float simplified_count <? Py.to_float max_coordinates * 0.5)%float
                then [underused_warning simplified_count max_coordinates] else [])
            ++ (if (length_preserved <? 95)%float
                then [length_warning length_preserved] else []) in
          let minimum_required := _calculate_minimum_required coordinates in
          if bool_decide (max_coordinates < minimum_required) then
            Raise (InsufficientCoordinatesError
                     ("Cannot represent this geometry with only " +:+ pretty max_coordinates
                      +:+ " coordinates. Minimum required: " +:+ pretty minimum_required)
                     minimum_required max_coordinates)
          else
            Return {| geometry := simplified_geometry;
                      original_count := original_count;
                      simplified_count := simplified_count;
                      reduction_ratio := reduction_ratio;
                      length_preserved := length_preserved;
                      warnings := warnings_list;
                      was_sufficient := was_sufficient |}
        end
  end.

(** The value stored under one limit by [get_simplification_preview]. *)
Definition preview_entry_of (o : outcome result) : option preview_entry :=
  match o with
  | Return r =>
      Some (Summary (simplified_count r) (reduction_ratio r) (length_preserved r)
                    (was_sufficient r) (Py.len (warnings r)))
  | Raise e => Some (Failure (exn_message e) (exn_type_name e))
  | RecursionError => None
  end.

(** The [for limit in max_coordinates_options] loop; [results] is the
    dictionary built so far.  An exception that the [except] clause does
    not name leaves the loop. *)
Fixpoint preview_loop (fuel : nat) (geojson_geometry : json)
    (max_coordinates_options : list Z) (results : gmap Z preview_entry)
    : option (gmap Z preview_entry) :=
  match max_coordinates_options with
  | [] => Some results
  | limit :: rest =>
      entry ← preview_entry_of (simplify_linestring fuel geojson_geometry limit true true 30 45);
      preview_loop fuel geojson_geometry rest (<[limit := entry]> results)
  end.

Definition get_simplification_preview (fuel : nat) (geojson_geometry : json)
    (max_coordinates_options : list Z) : option (gmap Z preview_entry) :=
  preview_loop fuel geojson_geometry max_coordinates_options ∅.

End Core.

(** *** validate_geometry *)

(** The dictionary returned by [validate_geometry].  For a geometry that
    is not valid it holds ['is_valid': False], the error text, the value of
    [geometry.get('type')] (Python's [None] is [JNull]), a count of 0 and
    a length of 0.0.  For a valid one it holds ['is_valid': True],
    ['error': None], ['geometry_type': 'LineString'] and the figures of
    the second constructor. *)
Inductive analysis :=
| Rejected (error : string) (geometry_type : json) (coordinate_count : Z)
           (total_length : float)
| Analysed (coordinate_count : Z) (total_length : float)
           (minimum_coordinates_required detected_corners detected_curves : Z)
           (complexity_score : float).

(** A call of [validate_geometry] returns its dictionary or, where it
    calls [.get] on a value that is not a [dict], raises
    [AttributeError]. *)
Inductive analysis_outcome :=
| Analysis (a : analysis)
| AttributeError.

Section Analysis.
Context `{Externals}.

Definition validate_geometry (geojson_geometry : json) : analysis_outcome :=
  match (match geojson_geometry with
         | JStr text => json_loads text
         | _ => inl geojson_geometry
         end) with
  | inr e => Analysis (Rejected ("Invalid JSON: " +:+ e) JNull 0 0)
  | inl geometry =>
      if negb (validate_geojson_linestring geometry) then
        match geometry with
        | JObj fields =>
            Analysis (Rejected "Invalid GeoJSON LineString geometry"
                               (default JNull (fields !! "type")) 0 0)
        | _ => AttributeError
        end
      else
        let coordinates := geometry_coordinates geometry in
        let coordinate_count := Py.len coordinates in
        let total_length := calculate_linestring_length coordinates in
        let minimum_required := _calculate_minimum_required coordinates in
        let corners := detect_corners coordinates 30 in
        let curves := detect_curves coordinates 5 45 in
        Analysis
          (Analysed coordinate_count total_length minimum_required
                    (Py.len corners) (Py.len curves)
                    (if bool_decide (0 < coordinate_count)
                     then (Py.to_float (Py.len corners + Py.len curves)
                           / Py.to_float coordinate_count)%float
                     else 0%float))
  end.

End Analysis.

(** *** calculate_bearing_change, as written

    The selector reaches [calculate_bearing_change] through [Externals].
    Here are its two [while] loops themselves, with a bound on the number
    of passes: [None] is a call that is still looping after [fuel]
    passes. *)

Module Normalize.

(** [while change > 180: change -= 360] *)
Fixpoint wind_down (fuel : nat) (change : float) : option float :=
  match fuel with
  | O => None
  | S fuel' =>
      if (180 <? change)%float then wind_down fuel' (change - 360)%float
      else Some change
  end.

(** [while change < -180: change += 360] *)
Fixpoint wind_up (fuel : nat) (change : float) : option float :=
  match fuel with
  | O => None
  | S fuel' =>
      if (change <? -180)%float then wind_up fuel' (change + 360)%float
      else Some change
  end.

Definition calculate_bearing_change (fuel : nat) (bearing1 bearing2 : float)
    : option float :=
  change ← wind_down fuel (bearing2 - bearing1)%float;
  wind_up fuel change.

End Normalize.

(** ** A runnable instance of the interface

    Longitude and latitude are read as plane coordinates: distances are
    Manhattan lengths, bearings are the eight compass directions, the
    distance to a segment is the absolute cross product.  On small integer
    grids every operation is exact.  The instance only serves to run the
    embedding on sample inputs; no theorem depends on it. *)

Module Grid.

Definition distance (lat1 lon1 lat2 lon2 : float) : float :=
  (abs (lat2 - lat1) + abs (lon2 - lon1))%float.

Definition bearing (lat1 lon1 lat2 lon2 : float) : float :=
  let dlat := (lat2 - lat1)%float in
  let dlon := (lon2 - lon1)%float in
  if (dlon =? 0)%float then (if (dlat <? 0)%float then 180 else 0)%float
  else if (dlat =? 0)%float then (if (0 <? dlon)%float then 90 else 270)%float
  else if (0 <? dlon)%float then (if (0 <? dlat)%float then 45 else 135)%float
  else (if (0 <? dlat)%float then 315 else 225)%float.

(** [calculate_bearing_change] for bearings in [0, 360): each of its two
    loops runs at most once. *)
Definition bearing_change (bearing1 bearing2 : float) : float :=
  let change := (bearing2 - bearing1)%float in
  let change := if (180 <? change)%float then (change - 360)%float else change in
  if (change <? -180)%float then (change + 360)%float else change.

Definition cross_distance (point line_start line_end : float * float) : float :=
  abs ((line_end.1 - line_start.1) * (point.2 - line_start.2)
       - (line_end.2 - line_start.2) * (point.1 - line_start.1))%float.

Definition pow (x : float) (i : Z) : float :=
  Z.iter i (λ acc, (acc * x)%float) 1%float.

#[export] Instance externals : Externals := {|
  haversine_distance := distance;
  calculate_bearing := bearing;
  calculate_bearing_change := bearing_change;
  point_to_line_distance := cross_distance;
  float_pow := pow;
  format_1f := λ _, "0.0";
  json_loads := λ _, inr "Expecting value";
|}.

(** [[lon, lat]] with integer components. *)
Definition pt (lon lat : Z) : json := JArr [JNum (Py.to_float lon); JNum (Py.to_float lat)].

Definition line_string (coordinates : list json) : json :=
  JObj (<["type" := JStr "LineString"]> (<["coordinates" := JArr coordinates]> ∅)).

(** The 8-point staircase of the test suite, on the grid. *)
Definition staircase : list json :=
  [pt 0 0; pt 0 1; pt 1 1; pt 1 2; pt 2 2; pt 2 3; pt 3 3; pt 3 4].

(** A 12-point path: a long straight run, one bump, a straight run. *)
Definition bump : list json :=
  [pt 0 0; pt 1 0; pt 2 0; pt 3 0; pt 4 0; pt 5 0; pt 6 5; pt 7 0; pt 8 0; pt 9 0;
   pt 10 0; pt 11 0].

End Grid.


(** * Facts about the Python built-ins *)

Section PyFacts.

Lemma elem_of_range (a b k : Z) : k ∈ Py.range a b ↔ a ≤ k < b.
Proof. unfold Py.range. rewrite elem_of_seqZ. lia. Qed.

Lemma len_range (a b : Z) : a ≤ b → Py.len (Py.range a b) = b - a.
Proof. intros. unfold Py.len, Py.range. rewrite length_seqZ. lia. Qed.

Lemma len_nonneg {A} (l : list A) : 0 ≤ Py.len l.
Proof. unfold Py.len. lia. Qed.

Lemma sorted_perm (s : gset Z) : Py.sorted s ≡ₚ elements s.
Proof. apply merge_sort_Permutation. Qed.

Lemma elem_of_sorted (s : gset Z) (x : Z) : x ∈ Py.sorted s ↔ x ∈ s.
Proof. rewrite sorted_perm. apply elem_of_elements. Qed.

Lemma len_sorted (s : gset Z) : Py.len (Py.sorted s) = Py.card s.
Proof. unfold Py.len, Py.card, size, set_size. simpl. by rewrite sorted_perm. Qed.

Lemma sorted_le (s : gset Z) : StronglySorted Z.le (Py.sorted s).
Proof.
apply (StronglySorted_merge_sort Z.le). Qed.

Lemma sorted_NoDup (s : gset Z) : NoDup (Py.sorted s).
Proof. rewrite sorted_perm. apply NoDup_elements. Qed.

Lemma set_sorted (s : gset Z) : Py.set (Py.sorted s) = s.
Proof. apply set_eq. intros x. unfold Py.set. rewrite elem_of_list_to_set. apply elem_of_sorted. Qed.

(** A sorted list is determined by its elements. *)
Lemma sorted_unique (s : gset Z) (l : list Z) :
  StronglySorted Z.le l → NoDup l → (∀ x, x ∈ l ↔ x ∈ s) → Py.sorted s = l.
Proof.
  intros Hs Hn Hl. apply (StronglySorted_unique Z.le); [apply sorted_le | done |].
  apply NoDup_Permutation; [apply sorted_NoDup | done |].
  intros x. by rewrite elem_of_sorted, Hl.
Qed.

Lemma range_sorted (a b : Z) : StronglySorted Z.le (Py.range a b).
Proof.
  unfold Py.range. remember (Z.to_nat (b - a)) as n eqn:Hn.
  revert a b Hn. induction n as [|n IH]; intros a b Hn.
  - rewrite seqZ_nil by lia. constructor.
  - rewrite seqZ_cons by lia. constructor.
    + replace (Z.pred (b - a)) with (b - Z.succ a) by lia. apply IH. lia.
    + apply Forall_forall. intros x Hx. apply elem_of_seqZ in Hx. lia.
Qed.

Lemma sorted_range (a b : Z) : Py.sorted (Py.set (Py.range a b)) = Py.range a b.
Proof.
  apply sorted_unique.
  - apply range_sorted.
  - apply NoDup_seqZ.
  - intros x. unfold Py.set. by rewrite elem_of_list_to_set.
Qed.

(** The first element of a sorted list is its least element. *)
Lemma sorted_head (l : list Z) (x : Z) :
  StronglySorted Z.le l → x ∈ l → (∀ y, y ∈ l → x ≤ y) → head l = Some x.
Proof.
  intros Hs Hx Hmin. destruct l as [|h t]; [by apply elem_of_nil in Hx|].
  simpl. f_equal. apply StronglySorted_inv in Hs as [_ Hall].
  rewrite Forall_forall in Hall.
  assert (x ≤ h) by (apply Hmin; left).
  apply elem_of_cons in Hx as [->|Hx]; [done|]. specialize (Hall _ Hx). lia.
Qed.

(** The last element of a sorted list is its greatest element. *)
Lemma sorted_last (l : list Z) (x : Z) :
  StronglySorted Z.le l → x ∈ l → (∀ y, y ∈ l → y ≤ x) → last l = Some x.
Proof.
  induction l as [|h t IH]; intros Hs Hx Hmax; [by apply elem_of_nil in Hx|].
  apply StronglySorted_inv in Hs as [Hs Hall]. rewrite Forall_forall in Hall.
  destruct t as [|h' t'].
  - simpl. apply elem_of_cons in Hx as [->|Hx]; [done|]. by apply elem_of_nil in Hx.
  - rewrite last_cons_cons. apply IH; [done| |].
    + apply elem_of_cons in Hx as [->|Hx]; [|done].
      assert (h' ≤ h) by (apply Hmax; right; left).
      assert (h ≤ h') by (apply Hall; left).
      replace h with h' by lia. left.
    + intros y Hy. apply Hmax. by right.
Qed.

Lemma card_set_le (l : list Z) : Py.card (Py.set l) ≤ Py.len l.
Proof.
  unfold Py.card, Py.set, Py.len. apply inj_le.
  induction l as [|x l IH]; cbn [length].
  - by rewrite list_to_set_nil, size_empty.
  - rewrite list_to_set_cons, size_union_alt, size_singleton.
    assert (size (list_to_set l ∖ {[x]} : gset Z) ≤ size (list_to_set l : gset Z))%nat
      by (apply subseteq_size; set_solver).
    lia.
Qed.

Lemma card_union_le (s t : gset Z) : Py.card (s ∪ t) ≤ Py.card s + Py.card t.
Proof.
  unfold Py.card. rewrite size_union_alt.
  assert (size (t ∖ s) ≤ size t)%nat by (apply subseteq_size; set_solver). lia.
Qed.

Lemma card_mono (s t : gset Z) : s ⊆ t → Py.card s ≤ Py.card t.
Proof. intros. unfold Py.card. apply inj_le. by apply subseteq_size. Qed.

Lemma card_pair (a b : Z) : a ≠ b → Py.card {[a; b]} = 2.
Proof.
  intros. unfold Py.card. rewrite size_union, !size_singleton by set_solver. done.
Qed.

Lemma len_slice_to_le {A} (l : list A) (k : Z) : 0 ≤ k → Py.len (Py.slice_to l k) ≤ k.
Proof.
  intros. unfold Py.slice_to, Py.len. rewrite bool_decide_eq_true_2 by done.
  rewrite length_take. lia.
Qed.

Lemma slice_to_nonneg {A} (l : list A) (k : Z) :
  0 ≤ k → Py.slice_to l k = take (Z.to_nat k) l.
Proof. intros. unfold Py.slice_to. by rewrite bool_decide_eq_true_2. Qed.

Lemma elem_of_slice_to {A} (l : list A) (k : Z) (x : A) : x ∈ Py.slice_to l k → x ∈ l.
Proof. unfold Py.slice_to. case_bool_decide; apply subseteq_take. Qed.

Lemma index_lookup {A} (l : list A) (i : Z) :
  0 ≤ i → Py.index l i = l !! Z.to_nat i.
Proof. intros. unfold Py.index. by rewrite bool_decide_eq_true_2. Qed.

End PyFacts.

(** * The facade on valid input *)

Section FacadeBasics.
Context `{Externals}.

(** Anything but a [str] is taken as the geometry itself. *)
Lemma parse_input_object (fields : gmap string json) :
  parse_input (JObj fields) = inr (JObj fields).
Proof. reflexivity. Qed.

(** A validated geometry has at least two coordinates. *)
Lemma validate_len (geometry : json) :
  validate_geojson_linestring geometry = true →
  2 ≤ Py.len (geometry_coordinates geometry).
Proof.
  unfold validate_geojson_linestring, geometry_coordinates.
  destruct geometry as [| | | |items|fields]; try done.
  destruct (fields !! "type") as [[| | |s| |]|]; try done.
  intros Hv.
  destruct (fields !! "coordinates") as [[| | | |cs|]|]; simpl in Hv;
    repeat match type of Hv with
           | (match ?s with _ => _ end) = true => destruct s; try done
           | (if ?a then _ else _) = true => destruct a; try done
           | (match ?a with | Ascii.Ascii _ _ _ _ _ _ _ _ => _ end) = true => destruct a
           end;
    try (apply andb_prop in Hv as [Hv _]; by apply bool_decide_eq_true in Hv).
Qed.

(** C7: with a valid geometry and a budget below 2 the facade raises
    [InsufficientCoordinatesError] with [minimum_required = 2] and
    [provided_limit] the budget, whatever the recursion depth available
    and whatever the numeric primitives compute: nothing of the
    simplification has run. *)
Theorem simplify_budget_below_two (fuel : nat) (geojson_geometry geometry : json)
    (max_coordinates : Z) (preserve_corners preserve_curves : bool)
    (min_angle_for_corners curve_detection_threshold : float) :
  parse_input geojson_geometry = inr geometry →
  validate_geojson_linestring geometry = true →
  max_coordinates < 2 →
  simplify_linestring fuel geojson_geometry max_coordinates preserve_corners
    preserve_curves min_angle_for_corners curve_detection_threshold
  = Raise (InsufficientCoordinatesError
             "max_coordinates must be at least 2 for a valid LineString"
             2 max_coordinates).
Proof.
  intros Hp Hv Hlt. unfold simplify_linestring. rewrite Hp, Hv. simpl.
  by rewrite bool_decide_eq_true_2.
Qed.

(** C3: with a valid geometry of at most [max_coordinates] coordinates
    (and a budget of at least 2) the facade returns the geometry itself,
    with ratio 0.0, length preserved 100.0, no warnings and
    [was_sufficient = True]. *)
Theorem simplify_identity (fuel : nat) (geojson_geometry geometry : json)
    (max_coordinates : Z) (preserve_corners preserve_curves : bool)
    (min_angle_for_corners curve_detection_threshold : float) :
  parse_input geojson_geometry = inr geometry →
  validate_geojson_linestring geometry = true →
  2 ≤ max_coordinates →
  Py.len (geometry_coordinates geometry) ≤ max_coordinates →
  simplify_linestring fuel geojson_geometry max_coordinates preserve_corners
    preserve_curves min_angle_for_corners curve_detection_threshold
  = Return {| geometry := geometry;
              original_count := Py.len (geometry_coordinates geometry);
              simplified_count := Py.len (geometry_coordinates geometry);
              reduction_ratio := 0;
              length_preserved := 100;
              warnings := [];
              was_sufficient := true |}.
Proof.
  intros Hp Hv Hge Hle. unfold simplify_linestring. rewrite Hp, Hv. simpl.
  rewrite bool_decide_eq_false_2 by lia. by rewrite bool_decide_eq_true_2.
Qed.

(** C10: [min_angle_for_corners] and [curve_detection_threshold] do not
    reach the selector: two calls that differ only in them give the same
    outcome, and the critical set is built with the detectors' defaults
    (30 degrees; window 5 and 45 degrees). *)
Theorem simplify_ignores_thresholds (fuel : nat) (geojson_geometry : json)
    (max_coordinates : Z) (preserve_corners preserve_curves : bool)
    (angle1 threshold1 angle2 threshold2 : float) (coordinates : list json) :
  simplify_linestring fuel geojson_geometry max_coordinates preserve_corners
    preserve_curves angle1 threshold1
  = simplify_linestring fuel geojson_geometry max_coordinates preserve_corners
      preserve_curves angle2 threshold2
  ∧ critical_set coordinates preserve_corners preserve_curves
    = {[0; Py.len coordinates - 1]}
      ∪ (if preserve_corners then Py.set (detect_corners coordinates 30) else ∅)
      ∪ (if preserve_curves then Py.set (detect_curves coordinates 5 45) else ∅).
Proof.
  split; [reflexivity|].
  unfold critical_set. destruct preserve_corners, preserve_curves; set_solver.
Qed.

End FacadeBasics.

(** * The detectors *)

Section Detectors.
Context `{Externals}.

Lemma filter_sorted (P : Z → Prop) `{!∀ x, Decision (P x)} (l : list Z) :
  StronglySorted Z.le l → StronglySorted Z.le (filter P l).
Proof.
  induction 1 as [|x l Hs IH Hall]; [constructor|].
  rewrite filter_cons. destruct (decide (P x)); [|done].
  constructor; [done|]. rewrite Forall_forall in *.
  intros y Hy. apply list_elem_of_filter in Hy as [_ Hy]. by apply Hall.
Qed.

(** Every index of [detect_corners] is a position of the polyline. *)
Lemma detect_corners_range (coordinates : list json) (angle : float) (i : Z) :
  1 ≤ Py.len coordinates →
  i ∈ detect_corners coordinates angle → 0 ≤ i ≤ Py.len coordinates - 1.
Proof.
  intros Hlen. unfold detect_corners. case_bool_decide.
  - rewrite !elem_of_cons, elem_of_nil. lia.
  - rewrite !elem_of_app, list_elem_of_filter, elem_of_range,
      !elem_of_cons, !elem_of_nil. lia.
Qed.

Lemma detect_corners_first (coordinates : list json) (angle : float) :
  head (detect_corners coordinates angle) = Some 0.
Proof. unfold detect_corners. by case_bool_decide. Qed.

Lemma detect_corners_ends (coordinates : list json) (angle : float) :
  0 ∈ detect_corners coordinates angle
  ∧ Py.len coordinates - 1 ∈ detect_corners coordinates angle.
Proof.
  unfold detect_corners. case_bool_decide.
  - rewrite !elem_of_cons. auto.
  - rewrite !elem_of_app, !elem_of_cons. auto.
Qed.

(** The list of corners is in ascending index order. *)
Lemma detect_corners_sorted (coordinates : list json) (angle : float) :
  1 ≤ Py.len coordinates → StronglySorted Z.le (detect_corners coordinates angle).
Proof.
  intros Hlen. unfold detect_corners. case_bool_decide.
  - repeat constructor. lia.
  - change ([0] ++ ?l) with (0 :: l). constructor.
    + apply StronglySorted_app_2.
      * intros x y Hx Hy. apply list_elem_of_filter in Hx as [_ Hx].
        apply elem_of_range in Hx. apply elem_of_cons in Hy as [->|Hy]; [lia|].
        by apply elem_of_nil in Hy.
      * apply filter_sorted, range_sorted.
      * repeat constructor.
    + apply Forall_forall. intros x.
      rewrite elem_of_app, list_elem_of_filter, elem_of_range, elem_of_cons, elem_of_nil. lia.
Qed.

(** C4, as the code has it: a polyline of at most twice the window size
    yields every index, [0] and the last one included; on a longer one
    every flagged index [i] has [window_size ≤ i < len - window_size], so
    it is interior once the window is at least 1. *)
Theorem detect_curves_indices (coordinates : list json) (window_size : Z)
    (curve_threshold : float) :
  (Py.len coordinates ≤ window_size * 2 →
     detect_curves coordinates window_size curve_threshold
     = Py.range 0 (Py.len coordinates))
  ∧ (window_size * 2 < Py.len coordinates →
     ∀ i, i ∈ detect_curves coordinates window_size curve_threshold →
          window_size ≤ i < Py.len coordinates - window_size).
Proof.
  unfold detect_curves. split; intros Hlen.
  - by rewrite bool_decide_eq_true_2.
  - rewrite bool_decide_eq_false_2 by lia. intros i Hi.
    apply list_elem_of_filter in Hi as [_ Hi]. by apply elem_of_range in Hi.
Qed.

(** With the selector's window of 5 every curve index is a position of the
    polyline. *)
Lemma detect_curves_range (coordinates : list json) (threshold : float) (i : Z) :
  i ∈ detect_curves coordinates 5 threshold → 0 ≤ i ≤ Py.len coordinates - 1.
Proof.
  unfold detect_curves. case_bool_decide.
  - rewrite elem_of_range. lia.
  - intros Hi. apply list_elem_of_filter in Hi as [_ Hi].
    apply elem_of_range in Hi. lia.
Qed.

End Detectors.

(** C4 as stated fails: on three points and the default window of 5 the
    detector returns all three indices, the two end points among them,
    where the specification has the empty list. *)
Lemma detect_curves_short_not_empty :
  detect_curves (H := Grid.externals) [Grid.pt 0 0; Grid.pt 1 0; Grid.pt 2 0] 5 45
  = [0; 1; 2].
Proof. reflexivity. Qed.

(** The curve detector on the 12-point path and on a 3-point one. *)
Lemma detect_curves_indices_witness :
  detect_curves (H := Grid.externals) [Grid.pt 0 0; Grid.pt 1 0; Grid.pt 2 0] 5 45
  = Py.range 0 3
  ∧ Forall (λ i, 5 ≤ i < 12 - 5) (detect_curves (H := Grid.externals) Grid.bump 5 45).
Proof.
  split.
  - apply (proj1 (detect_curves_indices (H := Grid.externals)
                    [Grid.pt 0 0; Grid.pt 1 0; Grid.pt 2 0] 5 45)).
    vm_compute. discriminate.
  - apply Forall_forall. intros i Hi.
    apply (proj2 (detect_curves_indices (H := Grid.externals) Grid.bump 5 45));
      [vm_compute; reflexivity | exact Hi].
Defined.

(** * Douglas-Peucker: shape of the result and termination *)

Section DouglasPeucker.
Context `{Externals}.

Lemma max_step_cases (coordinates : list json) (start end_ : Z)
    (st : float * Z) (i : Z) :
  max_step coordinates start end_ st i = st
  ∨ (max_step coordinates start end_ st i).2 = i.
Proof. unfold max_step. cbv zeta. case_match; auto. Qed.

(** The scan either never updates its state or ends on a scanned index. *)
Lemma max_step_fold_cases (coordinates : list json) (start end_ : Z)
    (st : float * Z) (l : list Z) :
  foldl (max_step coordinates start end_) st l = st
  ∨ (foldl (max_step coordinates start end_) st l).2 ∈ l.
Proof.
  induction l as [|x l IH] using rev_ind; [by left|].
  rewrite foldl_snoc.
  destruct (max_step_cases coordinates start end_
              (foldl (max_step coordinates start end_) st l) x) as [-> | ->].
  - destruct IH as [IH|IH]; [by left|]. right. apply elem_of_app. by left.
  - right. apply elem_of_app. right. left.
Qed.

Lemma find_max_cases (coordinates : list json) (start end_ : Z) :
  find_max coordinates start end_ = (0%float, start)
  ∨ start < (find_max coordinates start end_).2 < end_.
Proof.
  unfold find_max.
  destruct (max_step_fold_cases coordinates start end_ (0%float, start)
              (Py.range (start + 1) end_)) as [Hc|Hc]; [by left|].
  right. apply elem_of_range in Hc. lia.
Qed.

Lemma pair_bounds (s e : Z) :
  s ≤ e → s ∈ ({[s; e]} : gset Z) ∧ e ∈ ({[s; e]} : gset Z)
          ∧ ∀ i, i ∈ ({[s; e]} : gset Z) → s ≤ i ≤ e.
Proof.
  intros. split; [set_solver|]. split; [set_solver|].
  intros i Hi. apply elem_of_union in Hi as [Hi|Hi]; apply elem_of_singleton in Hi; lia.
Qed.

(** The result of [dp_recursive] holds both ends and stays between them. *)
Lemma dp_recursive_bounds (fuel : nat) (coordinates : list json) (tolerance : float)
    (start end_ : Z) (points : gset Z) :
  start ≤ end_ →
  dp_recursive fuel coordinates tolerance start end_ = Some points →
  start ∈ points ∧ end_ ∈ points ∧ ∀ i, i ∈ points → start ≤ i ≤ end_.
Proof.
  revert start end_ points. induction fuel as [|fuel IH]; intros s e S Hse; [done|].
  simpl. case_bool_decide as Hlen.
  { intros [= <-]. by apply pair_bounds. }
  destruct (find_max coordinates s e) as [md mi] eqn:Hmax.
  destruct (tolerance <? md)%float; [|intros [= <-]; by apply pair_bounds].
  assert (s ≤ mi ≤ e) as Hmi.
  { destruct (find_max_cases coordinates s e) as [Hc|Hc]; rewrite Hmax in Hc;
      simpl in Hc; [injection Hc as -> ->|]; lia. }
  destruct (dp_recursive fuel coordinates tolerance s mi) as [L|] eqn:HL; [|done].
  destruct (dp_recursive fuel coordinates tolerance mi e) as [R|] eqn:HR; [|done].
  simpl. intros [= <-].
  apply IH in HL as (HLs & HLe & HLr); [|lia].
  apply IH in HR as (HRs & HRe & HRr); [|lia].
  split; [apply elem_of_union; by left|]. split; [apply elem_of_union; by right|].
  intros i Hi. apply elem_of_union in Hi as [Hi|Hi];
    [apply HLr in Hi | apply HRr in Hi]; lia.
Qed.

(** With a tolerance that is not negative, a depth of [end - start]
    (and at least 1) is enough for [dp_recursive] to return. *)
Lemma dp_recursive_total (fuel : nat) (coordinates : list json) (tolerance : float)
    (start end_ : Z) :
  (tolerance <? 0)%float = false →
  (1 ≤ fuel)%nat → end_ - start ≤ Z.of_nat fuel →
  is_Some (dp_recursive fuel coordinates tolerance start end_).
Proof.
  intros Htol. revert start end_.
  induction fuel as [|fuel IH]; intros s e Hpos Hfuel; [lia|].
  simpl. case_bool_decide as Hlen; [done|].
  destruct (find_max coordinates s e) as [md mi] eqn:Hmax.
  destruct (tolerance <? md)%float eqn:Hcmp; [|done].
  destruct (find_max_cases coordinates s e) as [Hc|Hc]; rewrite Hmax in Hc; simpl in Hc.
  - injection Hc as -> ->. congruence.
  - destruct (IH s mi) as [L ->]; [lia..|].
    destruct (IH mi e) as [R ->]; [lia..|]. done.
Qed.

(** [douglas_peucker] returns a sorted list without repetition that
    holds [0] and the last index, all of them positions of the polyline. *)
Lemma douglas_peucker_shape (fuel : nat) (coordinates : list json) (tolerance : float)
    (indices : list Z) :
  1 ≤ Py.len coordinates →
  douglas_peucker fuel coordinates tolerance = Some indices →
  0 ∈ indices ∧ Py.len coordinates - 1 ∈ indices
  ∧ (∀ i, i ∈ indices → 0 ≤ i ≤ Py.len coordinates - 1)
  ∧ StronglySorted Z.le indices ∧ NoDup indices.
Proof.
  intros Hlen. unfold douglas_peucker. case_bool_decide.
  - intros [= <-]. rewrite !elem_of_range.
    split; [lia|]. split; [lia|]. split; [|split].
    + intros i. rewrite elem_of_range. lia.
    + apply range_sorted.
    + apply NoDup_seqZ.
  - destruct (dp_recursive _ _ _ _ _) as [S|] eqn:HS; [|done]. simpl. intros [= <-].
    apply dp_recursive_bounds in HS as (Hfirst & Hlast & Hr); [|lia].
    rewrite !elem_of_sorted.
    split; [done|]. split; [done|]. split; [|split].
    + intros i Hi. apply elem_of_sorted in Hi. auto.
    + apply sorted_le.
    + apply sorted_NoDup.
Qed.

Lemma douglas_peucker_total (fuel : nat) (coordinates : list json) (tolerance : float) :
  (tolerance <? 0)%float = false →
  Py.len coordinates ≤ Z.of_nat fuel →
  is_Some (douglas_peucker fuel coordinates tolerance).
Proof.
  intros Htol Hfuel. unfold douglas_peucker. case_bool_decide; [done|].
  destruct (dp_recursive_total fuel coordinates tolerance 0 (Py.len coordinates - 1))
    as [S ->]; [done|lia|lia|done].
Qed.

End DouglasPeucker.

(** * The order of the floats

    [<?] is read through its specification on [spec_float]; NaN compares
    with nothing. *)

Section FloatOrder.

Ltac sf_cases :=
  repeat match goal with
         | s : bool |- _ => destruct s
         | x : spec_float |- _ => destruct x
         end;
  cbn [SFltb SFcompare CompOpp];
  change (PosDef.Pos.compare_cont Eq) with Pos.compare;
  repeat match goal with
         | |- context [(?a ?= ?b)%Z] => destruct (Z.compare_spec a b); try lia
         | |- context [(?a ?= ?b)%positive] => destruct (Pos.compare_spec a b); try lia
         end;
  cbn [CompOpp]; try intuition congruence.

Lemma SFltb_irrefl (x : spec_float) : SFltb x x = false.
Proof. sf_cases. Qed.

Lemma SFltb_trans (x y z : spec_float) :
  SFltb x y = true → SFltb y z = true → SFltb x z = true.
Proof. sf_cases. Qed.

Lemma SFltb_cotrans (x y z : spec_float) :
  SFltb x z = true → SFltb x y = true ∨ SFltb y z = true ∨ y = S754_nan.
Proof. sf_cases. Qed.

Lemma ltb_irrefl (x : float) : (x <? x)%float = false.
Proof. rewrite ltb_spec. apply SFltb_irrefl. Qed.

Lemma ltb_trans (x y z : float) :
  (x <? y)%float = true → (y <? z)%float = true → (x <? z)%float = true.
Proof. rewrite !ltb_spec. apply SFltb_trans. Qed.

Lemma ltb_cotrans (x y z : float) :
  (x <? z)%float = true →
  (x <? y)%float = true ∨ (y <? z)%float = true ∨ ∀ w, (w <? y)%float = false.
Proof.
  rewrite !ltb_spec. intros Hxz.
  destruct (SFltb_cotrans _ (Prim2SF y) _ Hxz) as [?|[?|Hnan]]; [auto..|].
  right. right. intros w. rewrite ltb_spec, Hnan. unfold SFltb.
  by destruct (Prim2SF w).
Qed.

End FloatOrder.

(** * The scan of [dp_recursive] *)

Section Scan.
Context `{Externals}.

Lemma range_snoc (a b : Z) : a ≤ b → Py.range a (b + 1) = Py.range a b ++ [b].
Proof.
  intros. unfold Py.range. replace (b + 1 - a) with ((b - a) + 1) by lia.
  rewrite seqZ_app by lia. f_equal. replace (a + (b - a)) with b by lia.
  rewrite seqZ_cons by lia. by rewrite seqZ_nil by lia.
Qed.

Lemma range_split (a j b : Z) :
  a ≤ j < b → Py.range a b = Py.range a j ++ j :: Py.range (j + 1) b.
Proof.
  intros. unfold Py.range. replace (b - a) with ((j - a) + (b - j)) by lia.
  rewrite seqZ_app by lia. f_equal. replace (a + (j - a)) with j by lia.
  rewrite (seqZ_cons j) by lia. do 2 f_equal; lia.
Qed.

Lemma max_step_eq (coordinates : list json) (start end_ : Z) (st : float * Z) (i : Z) :
  max_step coordinates start end_ st i
  = if (st.1 <? segment_distance coordinates start end_ i)%float
    then (segment_distance coordinates start end_ i, i) else st.
Proof. reflexivity. Qed.

(** The state of the scan after the indices [start+1 .. start+n]. *)
Lemma scan_prefix (coordinates : list json) (start end_ : Z) (n : nat) (m : float) (k : Z) :
  foldl (max_step coordinates start end_) (0%float, start)
        (Py.range (start + 1) (start + 1 + Z.of_nat n)) = (m, k) →
  (k = start ∧ m = 0%float
   ∧ ∀ i, start < i < start + 1 + Z.of_nat n →
          (0 <? segment_distance coordinates start end_ i)%float = false)
  ∨ (start < k < start + 1 + Z.of_nat n
     ∧ m = segment_distance coordinates start end_ k
     ∧ (0 <? m)%float = true
     ∧ (∀ i, start < i < k →
          (segment_distance coordinates start end_ i <? m)%float = true
          ∨ ∀ w, (w <? segment_distance coordinates start end_ i)%float = false)
     ∧ ∀ i, start < i < start + 1 + Z.of_nat n →
            (m <? segment_distance coordinates start end_ i)%float = false).
Proof.
  revert m k. induction n as [|n IH]; intros m k.
  - replace (start + 1 + Z.of_nat 0) with (start + 1) by lia.
    unfold Py.range. rewrite Z.sub_diag. simpl. intros [= <- <-].
    left. split; [done|]. split; [done|]. intros; lia.
  - replace (start + 1 + Z.of_nat (S n)) with (start + 1 + Z.of_nat n + 1) by lia.
    rewrite range_snoc by lia. rewrite foldl_snoc.
    destruct (foldl _ _ _) as [m0 k0]. specialize (IH m0 k0 eq_refl).
    set (u := start + 1 + Z.of_nat n) in *.
    rewrite max_step_eq. cbn [fst].
    destruct (m0 <? segment_distance coordinates start end_ u)%float eqn:Hcmp.
    + intros [= <- <-]. right. split; [lia|]. split; [done|].
      destruct IH as [(-> & -> & Hnone)|(Hk0 & -> & Hpos & Hbefore & Hafter)].
      * split; [done|]. split.
        -- intros i Hi.
           destruct (ltb_cotrans _ (segment_distance coordinates start end_ i) _ Hcmp)
             as [Hc|[Hc|Hc]]; [|by left|by right].
           rewrite Hnone in Hc by lia. done.
        -- intros i Hi. destruct (decide (i = u)) as [->|Hne]; [apply ltb_irrefl|].
           destruct (_ <? segment_distance coordinates start end_ i)%float eqn:Hc; [|done].
           rewrite <- (Hnone i) by lia. symmetry. by eapply ltb_trans.
      * split; [by eapply ltb_trans|]. split.
        -- intros i Hi. destruct (decide (i < k0)) as [Hlt|Hge].
           { destruct (Hbefore i) as [Hc|Hc]; [lia| |by right]. left. by eapply ltb_trans. }
           destruct (ltb_cotrans _ (segment_distance coordinates start end_ i) _ Hcmp)
             as [Hc|[Hc|Hc]]; [|by left|by right].
           rewrite Hafter in Hc by lia. done.
        -- intros i Hi. destruct (decide (i = u)) as [->|Hne]; [apply ltb_irrefl|].
           destruct (_ <? segment_distance coordinates start end_ i)%float eqn:Hc; [|done].
           rewrite <- (Hafter i) by lia. symmetry. by eapply ltb_trans.
    + intros [= <- <-].
      destruct IH as [(-> & -> & Hnone)|(Hk0 & -> & Hpos & Hbefore & Hafter)].
      * left. split; [done|]. split; [done|]. intros i Hi.
        destruct (decide (i = u)) as [->|Hne]; [done|]. apply Hnone. lia.
      * right. split; [lia|]. split; [done|]. split; [done|]. split; [done|].
        intros i Hi. destruct (decide (i = u)) as [->|Hne]; [done|]. apply Hafter. lia.
Qed.

(** Where [find_max] stops, when it leaves [start]. *)
Lemma find_max_first_maximum (coordinates : list json) (start end_ : Z)
    (max_distance : float) (max_index : Z) :
  find_max coordinates start end_ = (max_distance, max_index) →
  max_index ≠ start →
  first_maximum coordinates start end_ max_index
  ∧ max_distance = segment_distance coordinates start end_ max_index.
Proof.
  unfold find_max. intros Hmax Hne.
  destruct (decide (start + 1 ≤ end_)) as [Hle|Hgt].
  - pose proof (scan_prefix coordinates start end_ (Z.to_nat (end_ - start - 1))
                  max_distance max_index) as Hscan.
    replace (start + 1 + Z.of_nat (Z.to_nat (end_ - start - 1))) with end_ in Hscan by lia.
    destruct (Hscan Hmax) as [(-> & _)|(Hk & -> & Hpos & Hbefore & Hafter)]; [done|].
    split; [|done]. split; [done|]. split; [done|]. split; [done|].
    intros i Hi. apply Hafter. lia.
  - unfold Py.range in Hmax. rewrite seqZ_nil in Hmax by lia. simpl in Hmax.
    injection Hmax as <- <-. done.
Qed.

(** Conversely the scan stops at a first maximum. *)
Lemma first_maximum_find_max (coordinates : list json) (start end_ j : Z) :
  first_maximum coordinates start end_ j →
  find_max coordinates start end_ = (segment_distance coordinates start end_ j, j).
Proof.
  intros (Hj & Hpos & Hbefore & Hafter). unfold find_max.
  rewrite (range_split (start + 1) j end_) by lia.
  rewrite foldl_app. cbn [foldl].
  assert (∀ (l : list Z) (st : float * Z),
            (∀ i, i ∈ l → start < i < j) →
            (st.1 <? segment_distance coordinates start end_ j)%float = true →
            ((foldl (max_step coordinates start end_) st l).1
             <? segment_distance coordinates start end_ j)%float = true) as Hprefix.
  { induction l as [|x l IHl]; intros st Hl Hst; [done|]. cbn [foldl].
    apply IHl; [intros i Hi; apply Hl; by right|].
    rewrite max_step_eq.
    destruct (st.1 <? segment_distance coordinates start end_ x)%float eqn:Hc; [|done].
    cbn [fst]. destruct (Hbefore x) as [Hx|Hx]; [apply Hl; left|done|].
    by rewrite Hx in Hc. }
  assert (∀ l : list Z,
            (∀ i, i ∈ l → j < i < end_) →
            foldl (max_step coordinates start end_)
                  (segment_distance coordinates start end_ j, j) l
            = (segment_distance coordinates start end_ j, j)) as Hsuffix.
  { induction l as [|x l IHl]; intros Hl; [done|]. cbn [foldl].
    rewrite max_step_eq. cbn [fst]. rewrite Hafter by (apply Hl; left).
    apply IHl. intros i Hi. apply Hl. by right. }
  rewrite (max_step_eq _ _ _ (foldl _ _ _) j).
  rewrite Hprefix; [|intros i Hi; apply elem_of_range in Hi; lia|done].
  apply Hsuffix. intros i Hi. apply elem_of_range in Hi. lia.
Qed.

End Scan.

(** * Douglas-Peucker on its own result *)

Section Idempotence.
Context `{Externals}.

(** A scan that stays at [start] under a tolerance below its distance
    makes [dp_recursive] call itself on the same range: no depth is
    enough. *)
Lemma dp_recursive_stuck (fuel : nat) (coordinates : list json) (tolerance : float)
    (start end_ : Z) (max_distance : float) :
  ¬ end_ - start ≤ 1 →
  find_max coordinates start end_ = (max_distance, start) →
  (tolerance <? max_distance)%float = true →
  dp_recursive fuel coordinates tolerance start end_ = None.
Proof.
  intros Hlen Hmax Htol. induction fuel as [|fuel IH]; [done|].
  simpl. rewrite bool_decide_eq_false_2 by done. rewrite Hmax, Htol, IH.
  by destruct (dp_recursive fuel coordinates tolerance start start).
Qed.

(** A first maximum of the polyline is one of a selection of its points
    that keeps this point and both ends. *)
Lemma first_maximum_transfer (coordinates reduced : list json) (φ : Z → Z)
    (s e a b c : Z) :
  φ a = s → φ b = e →
  (∀ k1 k2, a ≤ k1 < k2 ∧ k2 ≤ b → φ k1 < φ k2) →
  (∀ k, a ≤ k ≤ b → point_at reduced k = point_at coordinates (φ k)) →
  a < c < b →
  first_maximum coordinates s e (φ c) →
  first_maximum reduced a b c
  ∧ segment_distance reduced a b c = segment_distance coordinates s e (φ c).
Proof.
  intros Ha Hb Hmono Hpt Hc (Hj & Hpos & Hbefore & Hafter).
  assert (∀ k, a ≤ k ≤ b →
            segment_distance reduced a b k = segment_distance coordinates s e (φ k)) as Hd.
  { intros k Hk. unfold segment_distance. rewrite !Hpt by lia. by rewrite Ha, Hb. }
  split; [|apply Hd; lia].
  split; [done|]. rewrite (Hd c) by lia. split; [done|]. split.
  - intros i Hi. rewrite (Hd i) by lia. apply Hbefore.
    split; [rewrite <- Ha|]; apply Hmono; lia.
  - intros i Hi. rewrite (Hd i) by lia. apply Hafter.
    split; [|rewrite <- Hb]; apply Hmono; lia.
Qed.

Lemma set_range_pair (a b : Z) :
  a ≤ b ≤ a + 1 → ({[a; b]} : gset Z) = Py.set (Py.range a (b + 1)).
Proof.
  intros. apply set_eq. intros x. unfold Py.set.
  rewrite elem_of_union, !elem_of_singleton, elem_of_list_to_set, elem_of_range. lia.
Qed.

Lemma set_range_union (a c b : Z) :
  a ≤ c ≤ b →
  Py.set (Py.range a (c + 1)) ∪ Py.set (Py.range c (b + 1)) = Py.set (Py.range a (b + 1)).
Proof.
  intros. apply set_eq. intros x. unfold Py.set.
  rewrite elem_of_union, !elem_of_list_to_set, !elem_of_range. lia.
Qed.

(** The heart of idempotence.  [φ] numbers the points kept by a run on
    [start .. end_]; a run on a polyline that has these points at
    [a .. b] keeps every one of [a .. b], at the same depth. *)
Lemma dp_recursive_idem (fuel : nat) (coordinates reduced : list json) (tolerance : float)
    (φ : Z → Z) (s e : Z) (points : gset Z) (a b : Z) :
  dp_recursive fuel coordinates tolerance s e = Some points →
  a ≤ b → φ a = s → φ b = e →
  (∀ k1 k2, a ≤ k1 < k2 ∧ k2 ≤ b → φ k1 < φ k2) →
  (∀ k, a ≤ k ≤ b → point_at reduced k = point_at coordinates (φ k)) →
  (∀ i, i ∈ points ↔ ∃ k, a ≤ k ≤ b ∧ φ k = i) →
  dp_recursive fuel reduced tolerance a b = Some (Py.set (Py.range a (b + 1))).
Proof.
  revert s e points a b.
  induction fuel as [|fuel IH]; intros s e S a b Hdp Hab Ha Hb Hmono Hpt HS; [done|].
  assert (S = {[s; e]} → b ≤ a + 1) as Hpair.
  { intros ->. destruct (decide (b ≤ a + 1)) as [|Hgt]; [done|exfalso].
    assert (φ (a + 1) ∈ ({[s; e]} : gset Z)) as Hin
      by (apply HS; exists (a + 1); split; [lia|done]).
    assert (φ a < φ (a + 1)) by (apply Hmono; lia).
    assert (φ (a + 1) < φ b) by (apply Hmono; lia).
    apply elem_of_union in Hin as [Hin|Hin]; apply elem_of_singleton in Hin; lia. }
  simpl in Hdp. simpl.
  case_bool_decide as Hshort.
  { injection Hdp as <-. specialize (Hpair eq_refl).
    rewrite bool_decide_eq_true_2 by lia. f_equal. apply set_range_pair. lia. }
  destruct (find_max coordinates s e) as [md mi] eqn:Hmax.
  destruct (tolerance <? md)%float eqn:Htol.
  2:{ injection Hdp as <-. specialize (Hpair eq_refl).
      rewrite bool_decide_eq_true_2 by lia. f_equal. apply set_range_pair. lia. }
  destruct (decide (mi = s)) as [->|Hne].
  { rewrite (dp_recursive_stuck fuel coordinates tolerance s e md) in Hdp by done.
    by destruct (dp_recursive fuel coordinates tolerance s s). }
  destruct (find_max_first_maximum _ _ _ _ _ Hmax Hne) as [Hfirst ->].
  pose proof Hfirst as (Hmi & _).
  destruct (dp_recursive fuel coordinates tolerance s mi) as [L|] eqn:HL; [|done].
  destruct (dp_recursive fuel coordinates tolerance mi e) as [R|] eqn:HR; [|done].
  simpl in Hdp. injection Hdp as <-.
  destruct (dp_recursive_bounds fuel coordinates tolerance s mi L ltac:(lia) HL) as (HLs & HLe & HLr).
  destruct (dp_recursive_bounds fuel coordinates tolerance mi e R ltac:(lia) HR) as (HRs & HRe & HRr).
  destruct (proj1 (HS mi)) as (c & Hc & Hφc); [apply elem_of_union; by left|].
  assert (c ≠ a) by (intros ->; lia). assert (c ≠ b) by (intros ->; lia).
  subst mi.
  destruct (first_maximum_transfer coordinates reduced φ s e a b c Ha Hb Hmono Hpt
              ltac:(lia) Hfirst) as [Hfirst' Hdist].
  rewrite bool_decide_eq_false_2 by lia.
  rewrite (first_maximum_find_max reduced a b c Hfirst'), Hdist, Htol.
  rewrite (IH s (φ c) L a c HL); [|lia|done|done|intros; apply Hmono; lia
                                  |intros; apply Hpt; lia|].
  2:{ intros i. split.
      - intros Hi. destruct (proj1 (HS i)) as (k & Hk & <-); [apply elem_of_union; by left|].
        exists k. split; [|done]. apply HLr in Hi.
        destruct (decide (k ≤ c)); [lia|].
        assert (φ c < φ k) by (apply Hmono; lia). lia.
      - intros (k & Hk & <-).
        assert (φ k ∈ L ∪ R) as Hi by (apply HS; exists k; split; [lia|done]).
        apply elem_of_union in Hi as [Hi|Hi]; [done|].
        apply HRr in Hi.
        destruct (decide (k = c)) as [->|]; [done|].
        assert (φ k < φ c) by (apply Hmono; lia). lia. }
  rewrite (IH (φ c) e R c b HR); [|lia|done|done|intros; apply Hmono; lia
                                  |intros; apply Hpt; lia|].
  2:{ intros i. split.
      - intros Hi. destruct (proj1 (HS i)) as (k & Hk & <-); [apply elem_of_union; by right|].
        exists k. split; [|done]. apply HRr in Hi.
        destruct (decide (c ≤ k)); [lia|].
        assert (φ k < φ c) by (apply Hmono; lia). lia.
      - intros (k & Hk & <-).
        assert (φ k ∈ L ∪ R) as Hi by (apply HS; exists k; split; [lia|done]).
        apply elem_of_union in Hi as [Hi|Hi]; [|done].
        apply HLr in Hi.
        destruct (decide (k = c)) as [->|]; [done|].
        assert (φ c < φ k) by (apply Hmono; lia). lia. }
  simpl. f_equal. apply set_range_union. lia.
Qed.

(** Entries of a sorted list without repetition grow with the position. *)
Lemma sorted_lookup_le (l : list Z) (i j : nat) (x y : Z) :
  StronglySorted Z.le l → l !! i = Some x → l !! j = Some y → (i < j)%nat → x ≤ y.
Proof.
  intros Hs. revert i j. induction Hs as [|h t Hs IH Hall]; intros i j Hi Hj Hlt.
  - by rewrite lookup_nil in Hi.
  - destruct j as [|j]; [lia|]. destruct i as [|i].
    + injection Hi as ->. by apply (Forall_lookup_1 _ _ _ _ Hall Hj).
    + apply (IH i j); [done..|lia].
Qed.

Lemma sorted_lookup_lt (l : list Z) (i j : nat) (x y : Z) :
  StronglySorted Z.le l → NoDup l →
  l !! i = Some x → l !! j = Some y → (i < j)%nat → x < y.
Proof.
  intros Hs Hnd Hi Hj Hlt. pose proof (sorted_lookup_le l i j x y Hs Hi Hj Hlt).
  destruct (decide (x = y)) as [->|]; [|lia].
  pose proof (NoDup_lookup l i j y Hnd Hi Hj). lia.
Qed.

(** C8: when [douglas_peucker] returns [indices], running it with the
    same tolerance (and the same depth) on the polyline made of the
    points at [indices] returns every index of that polyline. *)
Theorem douglas_peucker_idempotent (fuel : nat) (coordinates : list json)
    (tolerance : float) (indices : list Z) :
  douglas_peucker fuel coordinates tolerance = Some indices →
  douglas_peucker fuel (coord_at coordinates <$> indices) tolerance
  = Some (Py.range 0 (Py.len indices)).
Proof.
  intros Hdp.
  assert (Py.len (coord_at coordinates <$> indices) = Py.len indices) as Hlen
    by (unfold Py.len; by rewrite length_fmap).
  unfold douglas_peucker in *. rewrite Hlen.
  destruct (bool_decide (Py.len indices ≤ 2)) eqn:Hfew; [done|].
  apply bool_decide_eq_false in Hfew.
  case_bool_decide as Hshort.
  { injection Hdp as <-. rewrite len_range in Hfew by apply len_nonneg. lia. }
  destruct (dp_recursive fuel coordinates tolerance 0 (Py.len coordinates - 1))
    as [S|] eqn:HS; [|done].
  simpl in Hdp. injection Hdp as <-.
  destruct (dp_recursive_bounds fuel coordinates tolerance 0 (Py.len coordinates - 1) S
              ltac:(lia) HS) as (Hfirst & Hlast & Hrange).
  set (out := Py.sorted S) in *.
  assert (∀ k, 0 ≤ k ≤ Py.len out - 1 → is_Some (out !! Z.to_nat k)) as Hsome.
  { intros k Hk. apply lookup_lt_is_Some. unfold Py.len in Hk. lia. }
  rewrite (dp_recursive_idem fuel coordinates (coord_at coordinates <$> out) tolerance
             (λ k, default 0 (out !! Z.to_nat k)) 0 (Py.len coordinates - 1) S
             0 (Py.len out - 1) HS).
  - simpl. replace (Py.len out - 1 + 1) with (Py.len out) by lia.
    by rewrite sorted_range.
  - lia.
  - rewrite <- head_lookup.
    rewrite (sorted_head out 0); [done|apply sorted_le|by apply elem_of_sorted|].
    intros y Hy. apply elem_of_sorted, Hrange in Hy. lia.
  - replace (Z.to_nat (Py.len out - 1)) with (pred (length out)) by (unfold Py.len; lia).
    rewrite <- last_lookup.
    rewrite (sorted_last out (Py.len coordinates - 1));
      [done|apply sorted_le|by apply elem_of_sorted|].
    intros y Hy. apply elem_of_sorted, Hrange in Hy. lia.
  - intros k1 k2 Hk.
    destruct (Hsome k1) as [x1 Hx1]; [lia|]. destruct (Hsome k2) as [x2 Hx2]; [lia|].
    rewrite Hx1, Hx2. simpl.
    apply (sorted_lookup_lt out (Z.to_nat k1) (Z.to_nat k2));
      [apply sorted_le|apply sorted_NoDup|done|done|lia].
  - intros k Hk. destruct (Hsome k Hk) as [x Hx]. rewrite Hx. simpl.
    assert (coord_at (coord_at coordinates <$> out) k = coord_at coordinates x) as Hcoord.
    { unfold coord_at at 1. rewrite index_lookup by lia.
      by rewrite list_lookup_fmap, Hx. }
    unfold point_at, lon_at, lat_at. by rewrite Hcoord.
  - intros i. split.
    + intros Hi. apply elem_of_sorted in Hi. fold out in Hi.
      apply list_elem_of_lookup in Hi as [n Hn].
      pose proof (lookup_lt_Some _ _ _ Hn).
      exists (Z.of_nat n). split; [unfold Py.len; lia|].
      by rewrite Nat2Z.id, Hn.
    + intros (k & Hk & <-). destruct (Hsome k Hk) as [x Hx]. rewrite Hx. simpl.
      apply elem_of_sorted. by apply list_elem_of_lookup_2 in Hx.
Qed.

End Idempotence.

(** * The adaptive selector *)

Section Selector.
Context `{Externals}.

Implicit Types (coordinates : list json) (critical_points : gset Z).

(** The critical set holds both ends and only positions of the polyline. *)
Lemma critical_set_bounds coordinates (preserve_corners preserve_curves : bool) :
  1 ≤ Py.len coordinates →
  {[0; Py.len coordinates - 1]} ⊆ critical_set coordinates preserve_corners preserve_curves
  ∧ ∀ i, i ∈ critical_set coordinates preserve_corners preserve_curves →
         0 ≤ i ≤ Py.len coordinates - 1.
Proof.
  intros Hlen. split.
  - unfold critical_set. destruct preserve_corners, preserve_curves; set_solver.
  - intros i. unfold critical_set, Py.set.
    assert (∀ a, i ∈ detect_corners coordinates a → 0 ≤ i ≤ Py.len coordinates - 1)
      by (intros a; by apply detect_corners_range).
    assert (∀ t, i ∈ detect_curves coordinates 5 t → 0 ≤ i ≤ Py.len coordinates - 1)
      by (intros t; by apply detect_curves_range).
    destruct preserve_corners, preserve_curves;
      rewrite ?elem_of_union, ?elem_of_list_to_set, ?elem_of_singleton; naive_solver lia.
Qed.

(** What one successful pass of the fill loop adds: the lowest
    [remaining_budget] indices of Douglas-Peucker that are not critical. *)
Lemma fill_addition critical_points (dp_points : list Z) (remaining_budget : Z) :
  0 < remaining_budget →
  (let additional_points := Py.set dp_points ∖ critical_points in
   let points_to_add := Z.min remaining_budget (Py.card additional_points) in
   if bool_decide (0 < points_to_add) then
     critical_points ∪ Py.set (Py.slice_to (Py.sorted additional_points) points_to_add)
   else critical_points)
  = critical_points
    ∪ Py.set (take (Z.to_nat remaining_budget)
                   (Py.sorted (Py.set dp_points ∖ critical_points))).
Proof.
  intros Hrem. cbv zeta. set (additional := Py.set dp_points ∖ critical_points).
  pose proof (len_sorted additional) as Hlen. unfold Py.len in Hlen.
  case_bool_decide as Hpos.
  - rewrite slice_to_nonneg by lia. f_equal. f_equal.
    destruct (Z.min_spec remaining_budget (Py.card additional)) as [[? ->]|[? ->]]; [done|].
    rewrite !take_ge; [done|lia..].
  - assert (Py.sorted additional = []) as ->.
    { apply length_zero_iff_nil. lia. }
    rewrite take_nil. unfold Py.set. rewrite list_to_set_nil. set_solver.
Qed.

(** The fill loop, read off the tolerance list: either some tolerance is
    the first whose Douglas-Peucker result fits with the critical set and
    its lowest new indices are added, or none fits and nothing is added. *)
Lemma fill_loop_first_fit (fuel : nat) coordinates (max_points remaining_budget : Z)
    critical_points (tols : list float) (final : gset Z) :
  0 < remaining_budget →
  fill_loop fuel coordinates max_points remaining_budget critical_points tols = Some final →
  (∃ (k : nat) (tolerance : float) (dp_points : list Z),
      tols !! k = Some tolerance
      ∧ douglas_peucker fuel coordinates tolerance = Some dp_points
      ∧ Py.card (critical_points ∪ Py.set dp_points) ≤ max_points
      ∧ (∀ (j : nat) (earlier : float), (j < k)%nat → tols !! j = Some earlier →
           ∃ dp_earlier, douglas_peucker fuel coordinates earlier = Some dp_earlier
                         ∧ max_points < Py.card (critical_points ∪ Py.set dp_earlier))
      ∧ final = critical_points
                ∪ Py.set (take (Z.to_nat remaining_budget)
                               (Py.sorted (Py.set dp_points ∖ critical_points))))
  ∨ ((∀ (j : nat) (tolerance : float), tols !! j = Some tolerance →
        ∃ dp_points, douglas_peucker fuel coordinates tolerance = Some dp_points
                     ∧ max_points < Py.card (critical_points ∪ Py.set dp_points))
     ∧ final = critical_points).
Proof.
  intros Hrem. induction tols as [|tolerance rest IH]; simpl.
  - intros [= <-]. right. split; [|done]. intros j t Hj. by rewrite lookup_nil in Hj.
  - destruct (douglas_peucker fuel coordinates tolerance) as [dp_points|] eqn:Hdp; [|done].
    simpl. case_bool_decide as Hfit.
    + intros Hfinal. left. exists 0%nat, tolerance, dp_points.
      split; [done|]. split; [done|]. split; [done|]. split; [intros; lia|].
      rewrite <- (fill_addition critical_points dp_points remaining_budget Hrem).
      cbv zeta. destruct (bool_decide _); by injection Hfinal.
    + intros Hfinal. destruct (IH Hfinal) as [(k & t & dps & Hk & Hd & Hc & Hbefore & ->)|[Hall ->]].
      * left. exists (S k), t, dps. split; [done|]. split; [done|]. split; [done|].
        split; [|done]. intros [|j] earlier Hj Hlook.
        -- injection Hlook as <-. exists dp_points. split; [done|lia].
        -- apply (Hbefore j); [lia|done].
      * right. split; [|done]. intros [|j] t Hlook.
        -- injection Hlook as <-. exists dp_points. split; [done|lia].
        -- by apply (Hall j).
Qed.

(** The tolerances are [10 * 0.8 ** i] for [i = 0 .. 19], in this order. *)
Lemma tolerances_lookup (k : nat) :
  tolerances !! k
  = if bool_decide (k < 20)%nat then Some (10 * float_pow 0.8 (Z.of_nat k))%float else None.
Proof.
  unfold tolerances, Py.range. rewrite list_lookup_fmap. case_bool_decide.
  - rewrite lookup_seqZ_lt by lia. simpl. by rewrite Z.add_0_l.
  - rewrite lookup_seqZ_ge by lia. done.
Qed.

(** What the fill loop returns keeps the critical set, stays within the
    polyline and adds at most [remaining_budget] indices. *)
Lemma fill_loop_bounds (fuel : nat) coordinates (max_points remaining_budget : Z)
    critical_points (tols : list float) (final : gset Z) :
  1 ≤ Py.len coordinates → 0 < remaining_budget →
  fill_loop fuel coordinates max_points remaining_budget critical_points tols = Some final →
  critical_points ⊆ final
  ∧ (∀ i, i ∈ final → i ∈ critical_points ∨ 0 ≤ i ≤ Py.len coordinates - 1)
  ∧ Py.card final ≤ Py.card critical_points + remaining_budget.
Proof.
  intros Hlen Hrem Hfill.
  destruct (fill_loop_first_fit _ _ _ _ _ _ _ Hrem Hfill)
    as [(k & t & dps & _ & Hdp & _ & _ & ->)|[_ ->]].
  - apply douglas_peucker_shape in Hdp as (_ & _ & Hr & _); [|done].
    split; [apply union_subseteq_l|]. split.
    + intros i. rewrite elem_of_union. intros [?|Hi]; [by left|right].
      apply elem_of_list_to_set in Hi. apply subseteq_take in Hi.
      apply elem_of_sorted, elem_of_difference in Hi as [Hi _].
      apply elem_of_list_to_set in Hi. auto.
    + etrans; [apply card_union_le|].
      pose proof (card_set_le (take (Z.to_nat remaining_budget)
                                    (Py.sorted (Py.set dps ∖ critical_points)))) as Hc.
      unfold Py.len in Hc. rewrite length_take in Hc. lia.
  - split; [done|]. split; [auto|lia].
Qed.

(** The sorted list of a set of positions that holds both ends. *)
Lemma sorted_shape (s : gset Z) (n : Z) :
  {[0; n - 1]} ⊆ s → (∀ i, i ∈ s → 0 ≤ i ≤ n - 1) →
  0 ∈ Py.sorted s ∧ n - 1 ∈ Py.sorted s
  ∧ (∀ i, i ∈ Py.sorted s → 0 ≤ i ≤ n - 1)
  ∧ StronglySorted Z.le (Py.sorted s) ∧ NoDup (Py.sorted s).
Proof.
  intros Hends Hr. rewrite !elem_of_sorted.
  split; [set_solver|]. split; [set_solver|]. split; [|split].
  - intros i Hi. apply elem_of_sorted in Hi. auto.
  - apply sorted_le.
  - apply sorted_NoDup.
Qed.

(** Every branch of [adaptive_simplification] returns a sorted list
    without repetition that holds [0] and the last index. *)
Lemma adaptive_simplification_shape (fuel : nat) coordinates (max_points : Z)
    (preserve_corners preserve_curves : bool) (indices : list Z) (sufficient : bool) :
  1 ≤ Py.len coordinates →
  adaptive_simplification fuel coordinates max_points preserve_corners preserve_curves
  = Some (indices, sufficient) →
  0 ∈ indices ∧ Py.len coordinates - 1 ∈ indices
  ∧ (∀ i, i ∈ indices → 0 ≤ i ≤ Py.len coordinates - 1)
  ∧ StronglySorted Z.le indices ∧ NoDup indices.
Proof.
  intros Hlen. unfold adaptive_simplification.
  destruct (critical_set_bounds coordinates preserve_corners preserve_curves Hlen)
    as [Hends Hrange].
  case_bool_decide as Hearly; [|case_bool_decide as Hover].
  - intros [= <- _]. rewrite !elem_of_range.
    split; [lia|]. split; [lia|]. split; [|split].
    + intros i. rewrite elem_of_range. lia.
    + apply range_sorted.
    + apply NoDup_seqZ.
  - intros [= <- _]. apply sorted_shape; [apply union_subseteq_l|].
    intros i. rewrite elem_of_union. intros [Hi|Hi].
    + apply elem_of_union in Hi as [Hi|Hi]; apply elem_of_singleton in Hi; lia.
    + apply elem_of_list_to_set, elem_of_slice_to in Hi.
      by apply detect_corners_range in Hi.
  - case_bool_decide as Hrem.
    + destruct (fill_loop _ _ _ _ _ _) as [final|] eqn:Hfill; [|done].
      simpl. intros [= <- _].
      apply fill_loop_bounds in Hfill as (Hsub & Hr & _); [|done..].
      apply sorted_shape; [set_solver|]. intros i Hi. destruct (Hr i Hi); auto.
    + simpl. intros [= <- _]. by apply sorted_shape.
Qed.

(** A list without repetition that holds two different values has at
    least two entries. *)
Lemma len_two_distinct (l : list Z) (a b : Z) : a ≠ b → a ∈ l → b ∈ l → 2 ≤ Py.len l.
Proof.
  intros Hne Ha Hb. destruct l as [|x [|y l]].
  - by apply elem_of_nil in Ha.
  - apply elem_of_cons in Ha as [->|Ha]; [|by apply elem_of_nil in Ha].
    apply elem_of_cons in Hb as [->|Hb]; [done|by apply elem_of_nil in Hb].
  - unfold Py.len. cbn [length]. lia.
Qed.

(** The number of indices kept, on every branch. *)
Lemma adaptive_simplification_count (fuel : nat) coordinates (max_points : Z)
    (preserve_corners preserve_curves : bool) (indices : list Z) (sufficient : bool) :
  2 ≤ Py.len coordinates → 2 ≤ max_points →
  adaptive_simplification fuel coordinates max_points preserve_corners preserve_curves
  = Some (indices, sufficient) →
  2 ≤ Py.len indices ≤ max_points.
Proof.
  intros Hlen Hmax Hres. split.
  - apply adaptive_simplification_shape in Hres as (H0 & Hn & _); [|lia].
    apply (len_two_distinct indices 0 (Py.len coordinates - 1)); [lia|done..].
  - revert Hres. unfold adaptive_simplification.
    case_bool_decide as Hearly; [|case_bool_decide as Hover].
    + intros [= <- _]. rewrite len_range; lia.
    + intros [= <- _]. rewrite len_sorted.
      etrans; [apply card_union_le|]. rewrite card_pair by lia.
      pose proof (card_set_le (Py.slice_to (detect_corners coordinates 60) (max_points - 2))).
      pose proof (len_slice_to_le (detect_corners coordinates 60) (max_points - 2)). lia.
    + case_bool_decide as Hrem.
      * destruct (fill_loop _ _ _ _ _ _) as [final|] eqn:Hfill; [|done].
        simpl. intros [= <- _]. rewrite len_sorted.
        apply fill_loop_bounds in Hfill as (_ & _ & Hc); [lia|lia|done].
      * simpl. intros [= <- _]. rewrite len_sorted. lia.
Qed.

(** A sorted list of positions that holds both ends starts with [0] and
    stops at the last position. *)
Lemma shape_head_last (indices : list Z) (n : Z) :
  0 ∈ indices → n - 1 ∈ indices → (∀ i, i ∈ indices → 0 ≤ i ≤ n - 1) →
  StronglySorted Z.le indices →
  head indices = Some 0 ∧ last indices = Some (n - 1).
Proof.
  intros H0 Hn Hr Hs. split.
  - apply sorted_head; [done..|]. intros y Hy. apply Hr in Hy. lia.
  - apply sorted_last; [done..|]. intros y Hy. apply Hr in Hy. lia.
Qed.

(** With tolerances that are not negative and a depth of the number of
    coordinates, the fill loop and the selector return. *)
Lemma fill_loop_total (fuel : nat) coordinates (max_points remaining_budget : Z)
    critical_points (tols : list float) :
  Forall (λ tolerance, (tolerance <? 0)%float = false) tols →
  Py.len coordinates ≤ Z.of_nat fuel →
  is_Some (fill_loop fuel coordinates max_points remaining_budget critical_points tols).
Proof.
  intros Htols Hfuel. induction Htols as [|t rest Ht _ IH]; simpl; [done|].
  destruct (douglas_peucker_total fuel coordinates t Ht Hfuel) as [dps ->]. simpl.
  repeat case_bool_decide; done.
Qed.

Lemma adaptive_simplification_total (fuel : nat) coordinates (max_points : Z)
    (preserve_corners preserve_curves : bool) :
  tolerances_nonnegative →
  Py.len coordinates ≤ Z.of_nat fuel →
  is_Some (adaptive_simplification fuel coordinates max_points
             preserve_corners preserve_curves).
Proof.
  intros Htols Hfuel. unfold adaptive_simplification.
  repeat case_bool_decide; try done.
  destruct (fill_loop_total fuel coordinates max_points
              (max_points - Py.card (critical_set coordinates preserve_corners preserve_curves))
              (critical_set coordinates preserve_corners preserve_curves)
              tolerances Htols Hfuel) as [final ->].
  done.
Qed.

(** C5: when the polyline has more points than the budget and the
    critical set is larger than the budget, the selector returns, with
    sufficiency [False], the sorted set made of the two ends and the first
    [max_points - 2] entries of [detect_corners(coordinates, 60.0)]; that
    list is in ascending index order and starts with the index 0, and the
    set returned has at most [max_points] elements. *)
Theorem overflow_policy (fuel : nat) coordinates (max_points : Z)
    (preserve_corners preserve_curves : bool) :
  2 ≤ max_points →
  max_points < Py.len coordinates →
  max_points < Py.card (critical_set coordinates preserve_corners preserve_curves) →
  adaptive_simplification fuel coordinates max_points preserve_corners preserve_curves
  = Some (Py.sorted ({[0; Py.len coordinates - 1]}
                     ∪ Py.set (take (Z.to_nat (max_points - 2))
                                    (detect_corners coordinates 60))),
          false)
  ∧ StronglySorted Z.le (detect_corners coordinates 60)
  ∧ head (detect_corners coordinates 60) = Some 0
  ∧ Py.card ({[0; Py.len coordinates - 1]}
             ∪ Py.set (take (Z.to_nat (max_points - 2)) (detect_corners coordinates 60)))
    ≤ max_points.
Proof.
  intros Hmax Hlen Hover. split; [|split; [|split]].
  - unfold adaptive_simplification.
    rewrite bool_decide_eq_false_2 by lia. rewrite bool_decide_eq_true_2 by done.
    by rewrite slice_to_nonneg by lia.
  - apply detect_corners_sorted. lia.
  - apply detect_corners_first.
  - etrans; [apply card_union_le|]. rewrite card_pair by lia.
    pose proof (card_set_le (take (Z.to_nat (max_points - 2))
                                  (detect_corners coordinates 60))) as Hc.
    unfold Py.len in Hc. rewrite length_take in Hc. lia.
Qed.

(** C6: the fill stage.  The tolerances are [10 * 0.8 ** i] for
    [i = 0 .. 19] in this order.  When the critical set leaves room in the
    budget the selector returns the sorted [final] set, where either some
    tolerance is the first whose Douglas-Peucker indices, united with the
    critical set, number at most [max_points], and [final] is the critical
    set with the lowest [remaining_budget] of the Douglas-Peucker indices
    that are not critical; or no tolerance fits and [final] is the
    critical set. *)
Theorem fill_stage (fuel : nat) coordinates (max_points : Z)
    (preserve_corners preserve_curves : bool) :
  tolerances_nonnegative →
  Py.len coordinates ≤ Z.of_nat fuel →
  max_points < Py.len coordinates →
  Py.card (critical_set coordinates preserve_corners preserve_curves) < max_points →
  (∀ k : nat, tolerances !! k
              = if bool_decide (k < 20)%nat
                then Some (10 * float_pow 0.8 (Z.of_nat k))%float else None)
  ∧ ∃ final : gset Z,
      adaptive_simplification fuel coordinates max_points preserve_corners preserve_curves
      = Some (Py.sorted final,
              is_sufficient (Py.len (Py.sorted final)) (Py.len coordinates) max_points)
      ∧ ((∃ (k : nat) (tolerance : float) (dp_points : list Z),
            tolerances !! k = Some tolerance
            ∧ douglas_peucker fuel coordinates tolerance = Some dp_points
            ∧ Py.card (critical_set coordinates preserve_corners preserve_curves
                       ∪ Py.set dp_points) ≤ max_points
            ∧ (∀ (j : nat) (earlier : float), (j < k)%nat → tolerances !! j = Some earlier →
                 ∃ dp_earlier,
                   douglas_peucker fuel coordinates earlier = Some dp_earlier
                   ∧ max_points
                     < Py.card (critical_set coordinates preserve_corners preserve_curves
                                ∪ Py.set dp_earlier))
            ∧ final
              = critical_set coordinates preserve_corners preserve_curves
                ∪ Py.set (take (Z.to_nat
                                  (max_points
                                   - Py.card (critical_set coordinates preserve_corners
                                                preserve_curves)))
                               (Py.sorted
                                  (Py.set dp_points
                                   ∖ critical_set coordinates preserve_corners
                                       preserve_curves))))
         ∨ ((∀ (j : nat) (tolerance : float), tolerances !! j = Some tolerance →
               ∃ dp_points,
                 douglas_peucker fuel coordinates tolerance = Some dp_points
                 ∧ max_points
                   < Py.card (critical_set coordinates preserve_corners preserve_curves
                              ∪ Py.set dp_points))
            ∧ final = critical_set coordinates preserve_corners preserve_curves)).
Proof.
  intros Htols Hfuel Hlen Hroom. split; [apply tolerances_lookup|].
  set (critical := critical_set coordinates preserve_corners preserve_curves) in *.
  destruct (fill_loop_total fuel coordinates max_points (max_points - Py.card critical)
              critical tolerances Htols Hfuel) as [final Hfill].
  exists final. split.
  - unfold adaptive_simplification. fold critical.
    rewrite bool_decide_eq_false_2 by lia. rewrite bool_decide_eq_false_2 by lia.
    rewrite bool_decide_eq_true_2 by lia. by rewrite Hfill.
  - apply fill_loop_first_fit in Hfill; [done|lia].
Qed.

End Selector.

(** * The facade on a polyline longer than the budget *)

Section Facade.
Context `{Externals}.

(** The coordinates of the geometry that the facade builds. *)
Lemma geometry_coordinates_built (coordinates : list json) :
  geometry_coordinates
    (JObj (<["type" := JStr "LineString"]> (<["coordinates" := JArr coordinates]> ∅)))
  = coordinates.
Proof.
  unfold geometry_coordinates.
  rewrite lookup_insert_ne by done. by rewrite lookup_insert_eq.
Qed.

(** What a returned result was made from: the input itself, or the
    indices chosen by the selector. *)
Lemma simplify_linestring_return (fuel : nat) (geojson_geometry : json)
    (max_coordinates : Z) (preserve_corners preserve_curves : bool)
    (min_angle_for_corners curve_detection_threshold : float) (r : result) :
  simplify_linestring fuel geojson_geometry max_coordinates preserve_corners
    preserve_curves min_angle_for_corners curve_detection_threshold = Return r →
  ∃ parsed,
    parse_input geojson_geometry = inr parsed
    ∧ validate_geojson_linestring parsed = true
    ∧ 2 ≤ max_coordinates
    ∧ ((Py.len (geometry_coordinates parsed) ≤ max_coordinates
        ∧ geometry r = parsed
        ∧ simplified_count r = Py.len (geometry_coordinates parsed))
       ∨ (max_coordinates < Py.len (geometry_coordinates parsed)
          ∧ ∃ indices sufficient,
              adaptive_simplification fuel (geometry_coordinates parsed) max_coordinates
                preserve_corners preserve_curves = Some (indices, sufficient)
              ∧ geometry_coordinates (geometry r)
                = coord_at (geometry_coordinates parsed) <$> indices
              ∧ simplified_count r = Py.len indices
              ∧ was_sufficient r = sufficient)).
Proof.
  unfold simplify_linestring.
  destruct (parse_input geojson_geometry) as [e|parsed]; [done|].
  destruct (validate_geojson_linestring parsed) eqn:Hvalid; [|done]. simpl.
  case_bool_decide as Hbudget; [done|]. case_bool_decide as Hearly.
  - intros [= <-]. exists parsed. simpl. split; [done|]. split; [done|].
    split; [lia|]. by left.
  - destruct (adaptive_simplification _ _ _ _ _) as [[indices sufficient]|] eqn:Hsel; [|done].
    case_bool_decide as Hmin; [done|].
    intros [= <-]. exists parsed. simpl. split; [done|]. split; [done|].
    split; [lia|]. right. split; [lia|]. exists indices, sufficient.
    split; [done|]. split; [apply geometry_coordinates_built|].
    split; [|done]. unfold Py.len. by rewrite length_fmap.
Qed.

(** With tolerances that are not negative and a depth of the number of
    coordinates the facade returns or raises one of its two errors. *)
Lemma simplify_linestring_total (fuel : nat) (geojson_geometry : json)
    (max_coordinates : Z) (preserve_corners preserve_curves : bool)
    (min_angle_for_corners curve_detection_threshold : float) :
  tolerances_nonnegative →
  (∀ parsed, parse_input geojson_geometry = inr parsed →
             Py.len (geometry_coordinates parsed) ≤ Z.of_nat fuel) →
  simplify_linestring fuel geojson_geometry max_coordinates preserve_corners
    preserve_curves min_angle_for_corners curve_detection_threshold ≠ RecursionError.
Proof.
  intros Htols Hfuel. unfold simplify_linestring.
  destruct (parse_input geojson_geometry) as [e|parsed]; [done|].
  specialize (Hfuel parsed eq_refl).
  destruct (negb _); [done|]. simpl.
  case_bool_decide; [done|]. case_bool_decide; [done|].
  destruct (adaptive_simplification_total fuel (geometry_coordinates parsed) max_coordinates
              preserve_corners preserve_curves Htols Hfuel) as [[indices sufficient] ->].
  by case_bool_decide.
Qed.

(** C1: a returned result has between 2 and [max(max_coordinates, 2)]
    coordinates, and [simplified_count] is their number; the selector, on
    a polyline of at least two points and with a budget of at least 2,
    returns between 2 and [max_points] indices, none of them twice, on
    every branch. *)
Theorem simplified_count_bounds (fuel : nat) (geojson_geometry : json)
    (max_coordinates : Z) (preserve_corners preserve_curves : bool)
    (min_angle_for_corners curve_detection_threshold : float) (r : result) :
  2 ≤ max_coordinates →
  simplify_linestring fuel geojson_geometry max_coordinates preserve_corners
    preserve_curves min_angle_for_corners curve_detection_threshold = Return r →
  2 ≤ simplified_count r ≤ Z.max max_coordinates 2
  ∧ simplified_count r = Py.len (geometry_coordinates (geometry r))
  ∧ ∀ (coordinates : list json) (max_points : Z) (corners curves : bool)
      (indices : list Z) (sufficient : bool),
      2 ≤ Py.len coordinates → 2 ≤ max_points →
      adaptive_simplification fuel coordinates max_points corners curves
      = Some (indices, sufficient) →
      2 ≤ Py.len indices ≤ max_points ∧ NoDup indices.
Proof.
  intros Hbudget Hret. split; [|split].
  - apply simplify_linestring_return in Hret
      as (parsed & _ & Hvalid & _ & [(Hle & _ & ->)|(Hlt & indices & suff & Hsel & _ & -> & _)]).
    + apply validate_len in Hvalid. lia.
    + apply validate_len in Hvalid.
      apply adaptive_simplification_count in Hsel; lia.
  - apply simplify_linestring_return in Hret
      as (parsed & _ & _ & _ & [(_ & -> & ->)|(_ & indices & suff & _ & -> & -> & _)]);
      [done|]. unfold Py.len. by rewrite length_fmap.
  - intros coordinates max_points corners curves indices sufficient Hlen Hmax Hsel.
    split; [by eapply adaptive_simplification_count|].
    apply adaptive_simplification_shape in Hsel; [tauto|lia].
Qed.

(** The coordinate at a position is the entry of the list. *)
Lemma coord_at_lookup (coordinates : list json) (n : nat) (c : json) :
  coordinates !! n = Some c → coord_at coordinates (Z.of_nat n) = c.
Proof.
  intros Hc. unfold coord_at. rewrite index_lookup by lia. by rewrite Nat2Z.id, Hc.
Qed.

(** Picking the coordinates of a list of positions that starts with [0]
    and stops at the last position keeps both ends of the polyline. *)
Lemma coord_at_ends (coordinates : list json) (indices : list Z) :
  1 ≤ Py.len coordinates →
  head indices = Some 0 → last indices = Some (Py.len coordinates - 1) →
  head (coord_at coordinates <$> indices) = head coordinates
  ∧ last (coord_at coordinates <$> indices) = last coordinates.
Proof.
  unfold Py.len. intros Hlen Hhead Hlast. split.
  - destruct indices as [|i rest]; [done|]. injection Hhead as ->.
    destruct coordinates as [|c cs]; [simpl in Hlen; lia|].
    simpl. f_equal; by apply (coord_at_lookup (c :: cs) 0).
  - rewrite fmap_last, Hlast, last_lookup. simpl.
    destruct (coordinates !! pred (length coordinates)) as [c|] eqn:Hc.
    + f_equal.
      replace (Z.of_nat (length coordinates) - 1)
        with (Z.of_nat (pred (length coordinates))) by lia.
      by apply coord_at_lookup.
    + apply lookup_ge_None in Hc. lia.
Qed.

(** C2: the first and the last coordinate of a returned geometry are
    those of the input; and the index lists of the selector, of
    Douglas-Peucker and of the corner detector hold [0] and the last
    index. *)
Theorem endpoints_preserved (fuel : nat) (geojson_geometry parsed : json)
    (max_coordinates : Z) (preserve_corners preserve_curves : bool)
    (min_angle_for_corners curve_detection_threshold : float) (r : result) :
  parse_input geojson_geometry = inr parsed →
  simplify_linestring fuel geojson_geometry max_coordinates preserve_corners
    preserve_curves min_angle_for_corners curve_detection_threshold = Return r →
  head (geometry_coordinates (geometry r)) = head (geometry_coordinates parsed)
  ∧ last (geometry_coordinates (geometry r)) = last (geometry_coordinates parsed)
  ∧ (∀ (coordinates : list json) (max_points : Z) (corners curves : bool)
       (indices : list Z) (sufficient : bool),
       1 ≤ Py.len coordinates →
       adaptive_simplification fuel coordinates max_points corners curves
       = Some (indices, sufficient) →
       0 ∈ indices ∧ Py.len coordinates - 1 ∈ indices)
  ∧ (∀ (coordinates : list json) (tolerance : float) (indices : list Z),
       1 ≤ Py.len coordinates →
       douglas_peucker fuel coordinates tolerance = Some indices →
       0 ∈ indices ∧ Py.len coordinates - 1 ∈ indices)
  ∧ (∀ (coordinates : list json) (angle_threshold : float),
       0 ∈ detect_corners coordinates angle_threshold
       ∧ Py.len coordinates - 1 ∈ detect_corners coordinates angle_threshold).
Proof.
  intros Hparse Hret.
  assert (head (geometry_coordinates (geometry r)) = head (geometry_coordinates parsed)
          ∧ last (geometry_coordinates (geometry r)) = last (geometry_coordinates parsed))
    as [Hhead Hlast].
  { apply simplify_linestring_return in Hret
      as (parsed' & Hparse' & Hvalid & _ & Hcases).
    rewrite Hparse in Hparse'. injection Hparse' as <-.
    apply validate_len in Hvalid.
    destruct Hcases as [(_ & -> & _)|(_ & indices & suff & Hsel & -> & _)]; [done|].
    apply adaptive_simplification_shape in Hsel as (H0 & Hn & Hr & Hs & _); [|lia].
    apply coord_at_ends; [lia|by apply (shape_head_last indices (Py.len (geometry_coordinates parsed)))..]. }
  split; [done|]. split; [done|]. split; [|split].
  - intros coordinates max_points corners curves indices sufficient Hlen Hsel.
    apply adaptive_simplification_shape in Hsel; [tauto|done].
  - intros coordinates tolerance indices Hlen Hdp.
    apply douglas_peucker_shape in Hdp; [tauto|done].
  - intros coordinates angle_threshold. apply detect_corners_ends.
Qed.

End Facade.

(** * The preview *)

Section Preview.
Context `{Externals}.

(** As long as no call runs out of depth, the loop stores under each
    limit the entry of that limit's call and leaves every other key as it
    was. *)
Lemma preview_loop_entries (fuel : nat) (geojson_geometry : json)
    (max_coordinates_options : list Z) (results : gmap Z preview_entry) :
  (∀ limit, limit ∈ max_coordinates_options →
     simplify_linestring fuel geojson_geometry limit true true 30 45 ≠ RecursionError) →
  ∃ final,
    preview_loop fuel geojson_geometry max_coordinates_options results = Some final
    ∧ (∀ limit, limit ∈ max_coordinates_options →
         final !! limit
         = preview_entry_of (simplify_linestring fuel geojson_geometry limit true true 30 45))
    ∧ (∀ limit, limit ∉ max_coordinates_options → final !! limit = results !! limit).
Proof.
  revert results. induction max_coordinates_options as [|l rest IH]; intros results Hok.
  - exists results. split; [done|]. split; [|done]. intros limit Hin.
    by apply elem_of_nil in Hin.
  - simpl.
    destruct (preview_entry_of (simplify_linestring fuel geojson_geometry l true true 30 45))
      as [entry|] eqn:Hentry.
    2:{ exfalso. apply (Hok l); [left|].
        by destruct (simplify_linestring fuel geojson_geometry l true true 30 45). }
    simpl. destruct (IH (<[l := entry]> results)) as (final & -> & Hin & Hout).
    { intros limit Hlimit. apply Hok. by right. }
    exists final. split; [done|]. split.
    + intros limit Hlimit. destruct (decide (limit ∈ rest)) as [Hrest|Hrest]; [by apply Hin|].
      apply elem_of_cons in Hlimit as [->|Hlimit]; [|done].
      rewrite (Hout l Hrest), lookup_insert_eq. done.
    + intros limit Hlimit. apply not_elem_of_cons in Hlimit as [Hne Hrest].
      rewrite (Hout limit Hrest). by rewrite lookup_insert_ne.
Qed.

(** C9: with tolerances that are not negative and a depth of the number
    of coordinates, the preview returns a dictionary whose keys are the
    limits given; under each limit it holds the summary of the result of
    [simplify_linestring] for that limit, or the message and the class
    name of the error that call raised.  No limit is left out because
    another one failed. *)
Theorem preview_covers_every_limit (fuel : nat) (geojson_geometry : json)
    (max_coordinates_options : list Z) :
  tolerances_nonnegative →
  (∀ parsed, parse_input geojson_geometry = inr parsed →
             Py.len (geometry_coordinates parsed) ≤ Z.of_nat fuel) →
  ∃ results,
    get_simplification_preview fuel geojson_geometry max_coordinates_options = Some results
    ∧ (∀ limit, limit ∈ max_coordinates_options →
         match simplify_linestring fuel geojson_geometry limit true true 30 45 with
         | Return r =>
             results !! limit
             = Some (Summary (simplified_count r) (reduction_ratio r) (length_preserved r)
                             (was_sufficient r) (Py.len (warnings r)))
         | Raise e => results !! limit = Some (Failure (exn_message e) (exn_type_name e))
         | RecursionError => False
         end)
    ∧ (∀ limit, limit ∉ max_coordinates_options → results !! limit = None).
Proof.
  intros Htols Hfuel.
  destruct (preview_loop_entries fuel geojson_geometry max_coordinates_options ∅)
    as (results & Hloop & Hin & Hout).
  { intros limit _. by apply simplify_linestring_total. }
  exists results. split; [done|]. split.
  - intros limit Hlimit. specialize (Hin limit Hlimit).
    pose proof (simplify_linestring_total fuel geojson_geometry limit true true 30 45
                  Htols Hfuel) as Hne.
    by destruct (simplify_linestring fuel geojson_geometry limit true true 30 45).
  - intros limit Hlimit. by rewrite (Hout limit Hlimit).
Qed.

End Preview.

(** * Sample runs on the grid instance *)

Lemma grid_tolerances_nonnegative : tolerances_nonnegative (H := Grid.externals).
Proof. unfold tolerances_nonnegative. apply (bool_decide_unpack _). vm_compute. exact I. Qed.

(** A budget of 1 on the 12-point path. *)
Lemma simplify_budget_below_two_witness :
  simplify_linestring (H := Grid.externals) 0 (Grid.line_string Grid.bump) 1 true true 30 45
  = Raise (InsufficientCoordinatesError
             "max_coordinates must be at least 2 for a valid LineString" 2 1).
Proof.
  apply (simplify_budget_below_two (H := Grid.externals) 0 (Grid.line_string Grid.bump)
           (Grid.line_string Grid.bump));
    [reflexivity | vm_compute; reflexivity | lia].
Defined.

(** A budget of 20 on the 12-point path. *)
Lemma simplify_identity_witness :
  simplify_linestring (H := Grid.externals) 0 (Grid.line_string Grid.bump) 20 true true 30 45
  = Return {| geometry := Grid.line_string Grid.bump;
              original_count := 12;
              simplified_count := 12;
              reduction_ratio := 0;
              length_preserved := 100;
              warnings := [];
              was_sufficient := true |}.
Proof.
  apply (simplify_identity (H := Grid.externals) 0 (Grid.line_string Grid.bump)
           (Grid.line_string Grid.bump));
    [reflexivity | vm_compute; reflexivity | lia | vm_compute; discriminate].
Defined.

(** The staircase with a budget of 5: all eight indices are critical, and
    the indices [0; 1; 2] of the stricter corners come with the two ends. *)
Lemma overflow_policy_witness :
  adaptive_simplification (H := Grid.externals) 0 Grid.staircase 5 true true
  = Some ([0; 1; 2; 7], false).
Proof.
  destruct (overflow_policy (H := Grid.externals) 0 Grid.staircase 5 true true)
    as [-> _]; [lia | vm_compute; reflexivity | vm_compute; reflexivity |].
  vm_compute. reflexivity.
Defined.

(** The 12-point path with a budget of 7: five critical indices, two
    places left to fill. *)
Lemma fill_stage_witness :
  tolerances (H := Grid.externals) !! 1%nat = Some (10 * Grid.pow 0.8 1)%float
  ∧ ∃ final : gset Z,
      adaptive_simplification (H := Grid.externals) 12 Grid.bump 7 true true
      = Some (Py.sorted final, is_sufficient (Py.len (Py.sorted final)) 12 7).
Proof.
  destruct (fill_stage (H := Grid.externals) 12 Grid.bump 7 true true)
    as [Htol (final & Hres & _)];
    [exact grid_tolerances_nonnegative | vm_compute; discriminate
    | vm_compute; reflexivity | vm_compute; reflexivity |].
  split; [apply (Htol 1%nat) | by exists final].
Defined.

(** The 12-point path with a budget of 5. *)
Lemma simplified_count_bounds_witness :
  ∃ r, simplify_linestring (H := Grid.externals) 12 (Grid.line_string Grid.bump) 5
         true true 30 45 = Return r
       ∧ 2 ≤ simplified_count r ≤ Z.max 5 2.
Proof.
  destruct (simplify_linestring (H := Grid.externals) 12 (Grid.line_string Grid.bump) 5
              true true 30 45) as [r|e|] eqn:Hr.
  - exists r. split; [done|].
    by apply (simplified_count_bounds (H := Grid.externals) 12
                (Grid.line_string Grid.bump) 5 true true 30 45 r); [lia|].
  - vm_compute in Hr. discriminate.
  - vm_compute in Hr. discriminate.
Defined.

(** The ends of the 12-point path survive a budget of 5. *)
Lemma endpoints_preserved_witness :
  ∃ r, simplify_linestring (H := Grid.externals) 12 (Grid.line_string Grid.bump) 5
         true true 30 45 = Return r
       ∧ head (geometry_coordinates (geometry r)) = Some (Grid.pt 0 0)
       ∧ last (geometry_coordinates (geometry r)) = Some (Grid.pt 11 0).
Proof.
  destruct (simplify_linestring (H := Grid.externals) 12 (Grid.line_string Grid.bump) 5
              true true 30 45) as [r|e|] eqn:Hr.
  - exists r. split; [done|].
    destruct (endpoints_preserved (H := Grid.externals) 12 (Grid.line_string Grid.bump)
                (Grid.line_string Grid.bump) 5 true true 30 45 r eq_refl Hr)
      as (-> & -> & _).
    split; vm_compute; reflexivity.
  - vm_compute in Hr. discriminate.
  - vm_compute in Hr. discriminate.
Defined.

(** The preview of the 12-point path for the limits 1, 5 and 20: the
    failure under 1 does not keep 20 from being evaluated. *)
Lemma preview_covers_every_limit_witness :
  ∃ results,
    get_simplification_preview (H := Grid.externals) 12 (Grid.line_string Grid.bump)
      [1; 5; 20] = Some results
    ∧ results !! 1
      = Some (Failure "max_coordinates must be at least 2 for a valid LineString"
                      "InsufficientCoordinatesError")
    ∧ results !! 20 = Some (Summary 12 0 100 true 0).
Proof.
  destruct (preview_covers_every_limit (H := Grid.externals) 12
              (Grid.line_string Grid.bump) [1; 5; 20])
    as (results & Hres & Hin & _).
  - exact grid_tolerances_nonnegative.
  - intros parsed Hparse. cbv [Grid.line_string parse_input] in Hparse.
    injection Hparse as <-. vm_compute. discriminate.
  - exists results. split; [done|]. split.
    + assert (1 ∈ [1; 5; 20]) as H1 by (rewrite !elem_of_cons; auto).
      specialize (Hin 1 H1).
      assert (simplify_linestring (H := Grid.externals) 12 (Grid.line_string Grid.bump) 1
                true true 30 45
              = Raise (InsufficientCoordinatesError
                         "max_coordinates must be at least 2 for a valid LineString" 2 1))
        as Hs by (vm_compute; reflexivity).
      by rewrite Hs in Hin.
    + assert (20 ∈ [1; 5; 20]) as H20 by (rewrite !elem_of_cons; auto).
      specialize (Hin 20 H20).
      assert (simplify_linestring (H := Grid.externals) 12 (Grid.line_string Grid.bump) 20
                true true 30 45
              = Return {| geometry := Grid.line_string Grid.bump;
                          original_count := 12;
                          simplified_count := 12;
                          reduction_ratio := 0;
                          length_preserved := 100;
                          warnings := [];
                          was_sufficient := true |}) as Hs
        by (vm_compute; reflexivity).
      by rewrite Hs in Hin.
Defined.

(** Douglas-Peucker at tolerance 1 keeps five points of the 12-point
    path, and all five of them on a second run. *)
Lemma douglas_peucker_idempotent_witness :
  douglas_peucker (H := Grid.externals) 12 Grid.bump 1 = Some [0; 5; 6; 7; 11]
  ∧ douglas_peucker (H := Grid.externals) 12 (coord_at Grid.bump <$> [0; 5; 6; 7; 11]) 1
    = Some [0; 1; 2; 3; 4].
Proof.
  assert (douglas_peucker (H := Grid.externals) 12 Grid.bump 1 = Some [0; 5; 6; 7; 11])
    as Hrun by (vm_compute; reflexivity).
  split; [done|].
  exact (douglas_peucker_idempotent (H := Grid.externals) 12 Grid.bump 1 [0; 5; 6; 7; 11] Hrun).
Defined.
(** * Douglas-Peucker: what the tolerance guarantees *)

Section Tolerance.
Context `{Externals}.

Ltac sf_order :=
  repeat match goal with
         | s : bool |- _ => destruct s
         | x : spec_float |- _ => destruct x
         end;
  cbn [SFltb SFleb SFcompare CompOpp];
  change (PosDef.Pos.compare_cont Eq) with Pos.compare;
  repeat match goal with
         | |- context [(?a ?= ?b)%Z] => destruct (Z.compare_spec a b); try lia
         | |- context [(?a ?= ?b)%positive] => destruct (Pos.compare_spec a b); try lia
         end;
  cbn [CompOpp]; try intuition congruence.

Lemma SFleb_ltb_trans (x y z : spec_float) :
  SFleb x y = true → SFltb y z = true → SFltb x z = true.
Proof. sf_order. Qed.

Lemma SFleb_trans (x y z : spec_float) :
  SFleb x y = true → SFleb y z = true → SFleb x z = true.
Proof. sf_order. Qed.

Lemma leb_ltb_trans (x y z : float) :
  (x <=? y)%float = true → (y <? z)%float = true → (x <? z)%float = true.
Proof. rewrite leb_spec, !ltb_spec. apply SFleb_ltb_trans. Qed.

Lemma leb_trans (x y z : float) :
  (x <=? y)%float = true → (y <=? z)%float = true → (x <=? z)%float = true.
Proof. rewrite !leb_spec. apply SFleb_trans. Qed.

(** The distance that the scan returns bounds every distance of the
    range; it is [0.0], with the scan still at [start], or above [0.0]
    and the distance of the index returned. *)
Lemma find_max_upper (coordinates : list json) (start end_ : Z)
    (max_distance : float) (max_index : Z) :
  find_max coordinates start end_ = (max_distance, max_index) →
  (∀ i, start < i < end_ →
        (max_distance <? segment_distance coordinates start end_ i)%float = false)
  ∧ ((max_distance = 0%float ∧ max_index = start)
     ∨ ((0 <? max_distance)%float = true ∧ start < max_index < end_
        ∧ max_distance = segment_distance coordinates start end_ max_index)).
Proof.
  unfold find_max. intros Hmax.
  destruct (decide (start + 1 ≤ end_)) as [Hle|Hgt].
  - pose proof (scan_prefix coordinates start end_ (Z.to_nat (end_ - start - 1))
                  max_distance max_index) as Hscan.
    replace (start + 1 + Z.of_nat (Z.to_nat (end_ - start - 1))) with end_ in Hscan by lia.
    destruct (Hscan Hmax) as [(-> & -> & Hnone)|(Hk & Hm & Hpos & _ & Hafter)].
    + split; [done|]. by left.
    + split; [done|]. right. done.
  - unfold Py.range in Hmax. rewrite seqZ_nil in Hmax by lia. simpl in Hmax.
    injection Hmax as <- <-. split; [intros; lia|by left].
Qed.

(** A tolerance that the maximum does not exceed is exceeded by no
    distance that the maximum bounds. *)
Lemma within_of_max (tolerance max_distance d : float) :
  max_distance = 0%float ∨ (0 <? max_distance)%float = true →
  (tolerance <? max_distance)%float = false →
  (max_distance <? d)%float = false →
  (tolerance <? d)%float = false.
Proof.
  intros Hmd Htol Hd. destruct (tolerance <? d)%float eqn:Hc; [|done].
  destruct (ltb_cotrans _ max_distance _ Hc) as [Hx|[Hx|Hx]]; [congruence..|].
  destruct Hmd as [->|Hpos].
  - specialize (Hx (-1)%float). vm_compute in Hx. done.
  - by rewrite Hx in Hpos.
Qed.

Lemma elem_of_pair (s e x : Z) : x ∈ ({[s; e]} : gset Z) ↔ x = s ∨ x = e.
Proof. by rewrite elem_of_union, !elem_of_singleton. Qed.

(** Between two neighbours of the set kept by [dp_recursive] no point is
    farther than the tolerance from the segment that joins them. *)
Lemma dp_recursive_within (fuel : nat) (coordinates : list json) (tolerance : float)
    (s e : Z) (points : gset Z) (a b i : Z) :
  s ≤ e →
  dp_recursive fuel coordinates tolerance s e = Some points →
  a ∈ points → b ∈ points → (∀ j, j ∈ points → ¬ a < j < b) →
  a < i < b →
  (tolerance <? segment_distance coordinates a b i)%float = false.
Proof.
  revert s e points. induction fuel as [|fuel IH]; intros s e S Hse; [done|].
  simpl. case_bool_decide as Hshort.
  { intros [= <-] Ha Hb _ Hi. apply elem_of_pair in Ha, Hb. lia. }
  destruct (find_max coordinates s e) as [md mi] eqn:Hmax.
  destruct (find_max_upper _ _ _ _ _ Hmax) as [Hupper Hcases].
  destruct (tolerance <? md)%float eqn:Htol.
  2:{ intros [= <-] Ha Hb _ Hi. apply elem_of_pair in Ha, Hb.
      assert (a = s) as -> by lia. assert (b = e) as -> by lia.
      apply (within_of_max tolerance md); [|done|by apply Hupper].
      destruct Hcases as [[? _]|[? _]]; auto. }
  assert (s ≤ mi ≤ e) as Hmi by (destruct Hcases as [[_ ->]|(_ & ? & _)]; lia).
  destruct (dp_recursive fuel coordinates tolerance s mi) as [L|] eqn:HL; [|done].
  destruct (dp_recursive fuel coordinates tolerance mi e) as [R|] eqn:HR; [|done].
  simpl. intros [= <-] Ha Hb Hcons Hi.
  destruct (dp_recursive_bounds fuel coordinates tolerance s mi L ltac:(lia) HL)
    as (HLs & HLe & HLr).
  destruct (dp_recursive_bounds fuel coordinates tolerance mi e R ltac:(lia) HR)
    as (HRs & HRe & HRr).
  assert (¬ a < mi < b) as Hsplit by (apply Hcons, elem_of_union; by left).
  apply elem_of_union in Ha, Hb.
  destruct (decide (b ≤ mi)) as [Hleft|Hright].
  - apply (IH s mi L); [lia|done| | | |done].
    + destruct Ha as [Ha|Ha]; [done|]. apply HRr in Ha. lia.
    + destruct Hb as [Hb|Hb]; [done|]. apply HRr in Hb.
      by replace b with mi by lia.
    + intros j Hj. apply Hcons, elem_of_union. by left.
  - apply (IH mi e R); [lia|done| | | |done].
    + destruct Ha as [Ha|Ha]; [|done]. apply HLr in Ha.
      by replace a with mi by lia.
    + destruct Hb as [Hb|Hb]; [|done]. apply HLr in Hb. lia.
    + intros j Hj. apply Hcons, elem_of_union. by right.
Qed.

(** X1: the guarantee of Douglas-Peucker.  Between two consecutive indices
    of its result no point of the polyline is farther than the tolerance
    from the segment that joins them (a distance that is NaN counts as not
    farther). *)
Theorem douglas_peucker_within_tolerance (fuel : nat) (coordinates : list json)
    (tolerance : float) (indices : list Z) (k : nat) (a b i : Z) :
  douglas_peucker fuel coordinates tolerance = Some indices →
  indices !! k = Some a → indices !! S k = Some b →
  a < i < b →
  (tolerance <? segment_distance coordinates a b i)%float = false.
Proof.
  unfold douglas_peucker. case_bool_decide as Hshort.
  - intros [= <-] Ha Hb Hi. unfold Py.range in Ha, Hb.
    apply lookup_seqZ in Ha as [-> _]. apply lookup_seqZ in Hb as [-> _]. lia.
  - destruct (dp_recursive fuel coordinates tolerance 0 (Py.len coordinates - 1))
      as [S|] eqn:HS; [|done].
    simpl. intros [= <-] Ha Hb Hi.
    apply (dp_recursive_within fuel coordinates tolerance 0 (Py.len coordinates - 1) S);
      [lia|done|..|done].
    + by apply list_elem_of_lookup_2, elem_of_sorted in Ha.
    + by apply list_elem_of_lookup_2, elem_of_sorted in Hb.
    + intros j Hj Hbetween. apply elem_of_sorted, list_elem_of_lookup in Hj as [n Hn].
      destruct (decide (n ≤ k)%nat) as [Hle|Hgt].
      * destruct (decide (n = k)) as [->|]; [rewrite Hn in Ha; injection Ha; lia|].
        pose proof (sorted_lookup_le (Py.sorted S) n k j a (sorted_le S) Hn Ha). lia.
      * destruct (decide (n = Datatypes.S k)) as [->|];
          [rewrite Hn in Hb; injection Hb; lia|].
        pose proof (sorted_lookup_le (Py.sorted S) (Datatypes.S k) n b j (sorted_le S) Hb Hn).
        lia.
Qed.

(** With a higher tolerance [dp_recursive] returns where it did with a
    lower one, and keeps no new point. *)
Lemma dp_recursive_monotone (fuel : nat) (coordinates : list json) (t1 t2 : float)
    (s e : Z) (points1 : gset Z) :
  (t1 <=? t2)%float = true → s ≤ e →
  dp_recursive fuel coordinates t1 s e = Some points1 →
  ∃ points2, dp_recursive fuel coordinates t2 s e = Some points2 ∧ points2 ⊆ points1.
Proof.
  intros Hle. revert s e points1. induction fuel as [|fuel IH]; intros s e S1 Hse; [done|].
  simpl. case_bool_decide as Hshort.
  { intros [= <-]. by exists {[s; e]}. }
  destruct (find_max coordinates s e) as [md mi] eqn:Hmax.
  assert (s ≤ mi ≤ e) as Hmi.
  { destruct (find_max_cases coordinates s e) as [Hc|Hc]; rewrite Hmax in Hc;
      simpl in Hc; [injection Hc as -> ->|]; lia. }
  destruct (t1 <? md)%float eqn:Ht1.
  - destruct (dp_recursive fuel coordinates t1 s mi) as [L1|] eqn:HL; [|done].
    destruct (dp_recursive fuel coordinates t1 mi e) as [R1|] eqn:HR; [|done].
    simpl. intros [= <-].
    destruct (t2 <? md)%float.
    + destruct (IH s mi L1 ltac:(lia) HL) as (L2 & -> & HsubL).
      destruct (IH mi e R1 ltac:(lia) HR) as (R2 & -> & HsubR).
      exists (L2 ∪ R2). split; [done|]. set_solver.
    + exists {[s; e]}. split; [done|].
      destruct (dp_recursive_bounds fuel coordinates t1 s mi L1 ltac:(lia) HL) as (Hs & _).
      destruct (dp_recursive_bounds fuel coordinates t1 mi e R1 ltac:(lia) HR)
        as (_ & He & _).
      intros x Hx. apply elem_of_pair in Hx as [->| ->]; apply elem_of_union; auto.
  - intros [= <-]. destruct (t2 <? md)%float eqn:Ht2.
    + by rewrite (leb_ltb_trans t1 t2 md Hle Ht2) in Ht1.
    + by exists {[s; e]}.
Qed.

(** X2: raising the tolerance never adds a point.  When Douglas-Peucker
    returns at one tolerance it returns, at the same depth, at every
    higher one, with indices taken from those of the lower one. *)
Theorem douglas_peucker_tolerance_monotone (fuel : nat) (coordinates : list json)
    (t1 t2 : float) (indices1 : list Z) :
  (t1 <=? t2)%float = true →
  douglas_peucker fuel coordinates t1 = Some indices1 →
  ∃ indices2,
    douglas_peucker fuel coordinates t2 = Some indices2
    ∧ (∀ i, i ∈ indices2 → i ∈ indices1)
    ∧ Py.len indices2 ≤ Py.len indices1.
Proof.
  intros Hle. unfold douglas_peucker. case_bool_decide as Hshort.
  - intros [= <-]. by exists (Py.range 0 (Py.len coordinates)).
  - destruct (dp_recursive fuel coordinates t1 0 (Py.len coordinates - 1))
      as [S1|] eqn:HS1; [|done].
    simpl. intros [= <-].
    destruct (dp_recursive_monotone fuel coordinates t1 t2 0 (Py.len coordinates - 1) S1
                Hle ltac:(lia) HS1) as (S2 & -> & Hsub).
    exists (Py.sorted S2). split; [done|]. split.
    + intros i. rewrite !elem_of_sorted. apply Hsub.
    + rewrite !len_sorted. by apply card_mono.
Qed.

(** X3: with a tolerance that is not negative the recursion is never
    deeper than the number of segments: a depth of [len - 1] (and at
    least 1) is enough for [douglas_peucker] to return. *)
Theorem douglas_peucker_depth (fuel : nat) (coordinates : list json) (tolerance : float) :
  (tolerance <? 0)%float = false →
  (1 ≤ fuel)%nat → Py.len coordinates - 1 ≤ Z.of_nat fuel →
  ∃ indices, douglas_peucker fuel coordinates tolerance = Some indices.
Proof.
  intros Htol Hpos Hfuel. unfold douglas_peucker. case_bool_decide; [by eexists|].
  destruct (dp_recursive_total fuel coordinates tolerance 0 (Py.len coordinates - 1))
    as [S ->]; [done|done|lia|]. by eexists.
Qed.

(** A range in which no distance is above [0.0] leaves the scan at
    [start]. *)
Lemma find_max_flat (coordinates : list json) (start end_ : Z) :
  (∀ i, start < i < end_ →
        (0 <? segment_distance coordinates start end_ i)%float = false) →
  find_max coordinates start end_ = (0%float, start).
Proof.
  intros Hflat. unfold find_max.
  assert (∀ l : list Z, (∀ i, i ∈ l → start < i < end_) →
            foldl (max_step coordinates start end_) (0%float, start) l
            = (0%float, start)) as Hfold.
  { induction l as [|x l IHl]; intros Hl; [done|]. cbn [foldl].
    rewrite max_step_eq. cbn [fst]. rewrite Hflat by (apply Hl; left).
    apply IHl. intros i Hi. apply Hl. by right. }
  apply Hfold. intros i Hi. apply elem_of_range in Hi. lia.
Qed.

(** X4: a negative tolerance on a polyline of more than two points none
    of which is at a distance above [0.0] from the segment of the two
    ends: [dp_recursive] calls itself on the whole range again, and no
    depth is enough. *)
Theorem douglas_peucker_negative_tolerance (fuel : nat) (coordinates : list json)
    (tolerance : float) :
  2 < Py.len coordinates →
  (tolerance <? 0)%float = true →
  (∀ i, 0 < i < Py.len coordinates - 1 →
        (0 <? segment_distance coordinates 0 (Py.len coordinates - 1) i)%float = false) →
  douglas_peucker fuel coordinates tolerance = None.
Proof.
  intros Hlen Htol Hflat. unfold douglas_peucker.
  rewrite bool_decide_eq_false_2 by lia.
  rewrite (dp_recursive_stuck fuel coordinates tolerance 0 (Py.len coordinates - 1) 0);
    [done|lia|by apply find_max_flat|done].
Qed.

Lemma sorted_pair (a b : Z) : a < b → Py.sorted {[a; b]} = [a; b].
Proof.
  intros. apply sorted_unique.
  - repeat constructor. lia.
  - apply NoDup_cons. split; [|apply NoDup_singleton].
    rewrite elem_of_cons, elem_of_nil. lia.
  - intros x. rewrite elem_of_pair, !elem_of_cons, elem_of_nil. tauto.
Qed.

(** X5: when no interior point is farther than the tolerance from the
    segment of the two ends, only the two ends are kept. *)
Theorem douglas_peucker_all_within (fuel : nat) (coordinates : list json)
    (tolerance : float) :
  2 < Py.len coordinates → (1 ≤ fuel)%nat →
  (tolerance <? 0)%float = false →
  (∀ i, 0 < i < Py.len coordinates - 1 →
        (tolerance <? segment_distance coordinates 0 (Py.len coordinates - 1) i)%float
        = false) →
  douglas_peucker fuel coordinates tolerance = Some [0; Py.len coordinates - 1].
Proof.
  intros Hlen Hfuel Htol Hwithin. unfold douglas_peucker.
  rewrite bool_decide_eq_false_2 by lia.
  destruct fuel as [|fuel]; [lia|]. simpl.
  rewrite bool_decide_eq_false_2 by lia.
  destruct (find_max coordinates 0 (Py.len coordinates - 1)) as [md mi] eqn:Hmax.
  destruct (find_max_upper _ _ _ _ _ Hmax) as [_ [[-> _]|(_ & Hmi & ->)]].
  - rewrite Htol. simpl. by rewrite sorted_pair by lia.
  - rewrite Hwithin by done. simpl. by rewrite sorted_pair by lia.
Qed.

End Tolerance.

(** * The detectors and the selector: more of their behaviour *)

Section DetectorOrder.
Context `{Externals}.

Lemma filter_sublist_mono (P Q : Z → Prop) `{!∀ x, Decision (P x)}
    `{!∀ x, Decision (Q x)} (l : list Z) :
  (∀ x, P x → Q x) → filter P l `sublist_of` filter Q l.
Proof.
  intros HPQ. induction l as [|x l IH]; [done|]. rewrite !filter_cons.
  destruct (decide (P x)) as [HP|HP], (decide (Q x)) as [HQ|HQ].
  - by apply sublist_skip.
  - destruct HQ. by apply HPQ.
  - by apply sublist_cons.
  - done.
Qed.

(** X6: a stricter angle threshold keeps a sub-list of the corners of a
    laxer one. *)
Theorem detect_corners_threshold_monotone (coordinates : list json) (a1 a2 : float) :
  (a1 <=? a2)%float = true →
  detect_corners coordinates a2 `sublist_of` detect_corners coordinates a1.
Proof.
  intros Hle. unfold detect_corners. case_bool_decide; [done|].
  apply sublist_app; [done|]. apply sublist_app; [|done].
  apply filter_sublist_mono. intros i. unfold is_corner. rewrite !Is_true_true.
  intros Hi. by eapply leb_trans.
Qed.

(** The number of corners and of curve points. *)
Lemma detect_corners_count (coordinates : list json) (angle : float) :
  2 ≤ Py.len coordinates →
  2 ≤ Py.len (detect_corners coordinates angle) ≤ Py.len coordinates.
Proof.
  intros Hlen. unfold detect_corners. case_bool_decide.
  - change (Py.len [0; Py.len coordinates - 1]) with 2. lia.
  - pose proof (length_filter (is_corner coordinates angle)
                  (Py.range 1 (Py.len coordinates - 1))) as Hf.
    pose proof (len_range 1 (Py.len coordinates - 1) ltac:(lia)) as Hr.
    unfold Py.len in Hr at 1.
    assert (Py.len ([0] ++ filter (is_corner coordinates angle)
                                  (Py.range 1 (Py.len coordinates - 1))
                        ++ [Py.len coordinates - 1])
            = 2 + Z.of_nat (length (filter (is_corner coordinates angle)
                                           (Py.range 1 (Py.len coordinates - 1))))) as ->.
    { unfold Py.len at 1. rewrite !length_app. cbn [length]. lia. }
    lia.
Qed.

Lemma detect_curves_count (coordinates : list json) (window_size : Z)
    (curve_threshold : float) :
  0 ≤ window_size →
  0 ≤ Py.len (detect_curves coordinates window_size curve_threshold)
  ≤ Py.len coordinates.
Proof.
  intros Hwin. split; [apply len_nonneg|]. unfold detect_curves.
  case_bool_decide as Hshort.
  - rewrite len_range by apply len_nonneg. lia.
  - pose proof (length_filter (is_curve_point coordinates window_size curve_threshold)
                  (Py.range window_size (Py.len coordinates - window_size))) as Hf.
    pose proof (len_range window_size (Py.len coordinates - window_size) ltac:(lia)) as Hr.
    unfold Py.len in Hr at 1. unfold Py.len at 1. lia.
Qed.

(** X7: on a polyline of at least two points the corner list is strictly
    increasing, starts with [0], stops at the last index and has between
    2 and [len] entries. *)
Theorem detect_corners_shape (coordinates : list json) (angle : float) :
  2 ≤ Py.len coordinates →
  StronglySorted Z.le (detect_corners coordinates angle)
  ∧ NoDup (detect_corners coordinates angle)
  ∧ head (detect_corners coordinates angle) = Some 0
  ∧ last (detect_corners coordinates angle) = Some (Py.len coordinates - 1)
  ∧ 2 ≤ Py.len (detect_corners coordinates angle) ≤ Py.len coordinates.
Proof.
  intros Hlen. split; [apply detect_corners_sorted; lia|].
  split; [|split; [apply detect_corners_first|]].
  - unfold detect_corners. case_bool_decide.
    + apply NoDup_cons. split; [|apply NoDup_singleton].
      rewrite elem_of_cons, elem_of_nil. lia.
    + change ([0] ++ ?l) with (0 :: l). apply NoDup_cons. split.
      * rewrite elem_of_app, list_elem_of_filter, elem_of_range, elem_of_cons, elem_of_nil.
        lia.
      * apply NoDup_app. split; [apply NoDup_filter, NoDup_seqZ|].
        split; [|apply NoDup_singleton].
        intros x Hx. rewrite elem_of_cons, elem_of_nil.
        apply list_elem_of_filter in Hx as [_ Hx]. apply elem_of_range in Hx. lia.
  - split; [|by apply detect_corners_count].
    unfold detect_corners. case_bool_decide; [done|].
    by rewrite app_assoc, last_snoc.
Qed.

(** X8: a higher threshold keeps a sub-list of the curve points of a lower
    one. *)
Theorem detect_curves_threshold_monotone (coordinates : list json) (window_size : Z)
    (t1 t2 : float) :
  (t1 <=? t2)%float = true →
  detect_curves coordinates window_size t2
  `sublist_of` detect_curves coordinates window_size t1.
Proof.
  intros Hle. unfold detect_curves. case_bool_decide; [done|].
  apply filter_sublist_mono. intros i. unfold is_curve_point. rewrite !Is_true_true.
  intros Hi. by eapply leb_trans.
Qed.

(** X9: with a window that is not negative the curve list is strictly
    increasing and made of positions of the polyline, so it has at most
    [len] entries. *)
Theorem detect_curves_shape (coordinates : list json) (window_size : Z)
    (curve_threshold : float) :
  0 ≤ window_size →
  StronglySorted Z.le (detect_curves coordinates window_size curve_threshold)
  ∧ NoDup (detect_curves coordinates window_size curve_threshold)
  ∧ (∀ i, i ∈ detect_curves coordinates window_size curve_threshold →
          0 ≤ i < Py.len coordinates)
  ∧ Py.len (detect_curves coordinates window_size curve_threshold) ≤ Py.len coordinates.
Proof.
  intros Hwin. unfold detect_curves. case_bool_decide as Hshort.
  - split; [apply range_sorted|]. split; [apply NoDup_seqZ|]. split.
    + intros i Hi. apply elem_of_range in Hi. lia.
    + rewrite len_range by apply len_nonneg. lia.
  - split; [apply filter_sorted, range_sorted|].
    split; [apply NoDup_filter, NoDup_seqZ|]. split.
    + intros i Hi. apply list_elem_of_filter in Hi as [_ Hi].
      apply elem_of_range in Hi. lia.
    + pose proof (detect_curves_count coordinates window_size curve_threshold Hwin) as Hc.
      unfold detect_curves in Hc. rewrite bool_decide_eq_false_2 in Hc by done. lia.
Qed.

(** X10: when the critical set fits the budget every critical index is
    kept: with [preserve_corners] every corner at 30 degrees, with
    [preserve_curves] every curve point. *)
Theorem selector_keeps_critical (fuel : nat) (coordinates : list json) (max_points : Z)
    (preserve_corners preserve_curves : bool) (indices : list Z) (sufficient : bool) :
  max_points < Py.len coordinates →
  Py.card (critical_set coordinates preserve_corners preserve_curves) ≤ max_points →
  adaptive_simplification fuel coordinates max_points preserve_corners preserve_curves
  = Some (indices, sufficient) →
  (∀ i, i ∈ critical_set coordinates preserve_corners preserve_curves → i ∈ indices)
  ∧ (preserve_corners = true → ∀ i, i ∈ detect_corners coordinates 30 → i ∈ indices)
  ∧ (preserve_curves = true → ∀ i, i ∈ detect_curves coordinates 5 45 → i ∈ indices).
Proof.
  intros Hlen Hfit Hsel.
  assert (∀ i, i ∈ critical_set coordinates preserve_corners preserve_curves → i ∈ indices)
    as Hkept.
  { assert (1 ≤ Py.len coordinates) as Hpos.
    { assert ({[0]} ⊆ critical_set coordinates preserve_corners preserve_curves) as H0
        by (unfold critical_set; destruct preserve_corners, preserve_curves; set_solver).
      apply card_mono in H0. unfold Py.card in H0 at 1. rewrite size_singleton in H0. lia. }
    revert Hsel. unfold adaptive_simplification.
    rewrite bool_decide_eq_false_2 by lia. rewrite bool_decide_eq_false_2 by lia.
    case_bool_decide as Hrem.
    - destruct (fill_loop _ _ _ _ _ _) as [final|] eqn:Hfill; [|done].
      simpl. intros [= <- _] i Hi.
      apply fill_loop_bounds in Hfill as (Hsub & _); [|done..].
      apply elem_of_sorted. by apply Hsub.
    - simpl. intros [= <- _] i Hi. by apply elem_of_sorted. }
  split; [done|]. split.
  - intros -> i Hi. apply Hkept. unfold critical_set, Py.set.
    destruct preserve_curves; set_solver.
  - intros -> i Hi. apply Hkept. unfold critical_set, Py.set.
    destruct preserve_corners; set_solver.
Qed.

End DetectorOrder.

(** * Validation and the facade: more of their behaviour *)

Section FacadeExtras.
Context `{Externals}.

(** What a valid geometry is made of. *)
Lemma validate_inv (geometry : json) :
  validate_geojson_linestring geometry = true →
  ∃ fields coordinates,
    geometry = JObj fields
    ∧ fields !! "type" = Some (JStr "LineString")
    ∧ fields !! "coordinates" = Some (JArr coordinates)
    ∧ 2 ≤ Py.len coordinates
    ∧ forallb valid_coordinate coordinates = true.
Proof.
  unfold validate_geojson_linestring.
  destruct geometry as [| | | |items|fields]; try done.
  destruct (fields !! "type") as [[| | |s| |]|] eqn:Htype; try done.
  intros Hv.
  destruct (fields !! "coordinates") as [[| | | |cs|]|] eqn:Hcoords; simpl in Hv;
    repeat match type of Hv with
           | (match ?s with _ => _ end) = true => destruct s; try done
           | (if ?a then _ else _) = true => destruct a; try done
           | (match ?a with | Ascii.Ascii _ _ _ _ _ _ _ _ => _ end) = true => destruct a
           end.
  apply andb_prop in Hv as [Hlen Hall]. apply bool_decide_eq_true in Hlen.
  by exists fields, cs.
Qed.

(** A valid coordinate entry is a list whose first two members are
    numbers within the bounds. *)
Lemma valid_coordinate_inv (coord : json) :
  valid_coordinate coord = true →
  (-180 <=? component coord 0)%float = true ∧ (component coord 0 <=? 180)%float = true
  ∧ (-90 <=? component coord 1)%float = true ∧ (component coord 1 <=? 90)%float = true.
Proof.
  unfold valid_coordinate, component.
  destruct coord as [| | | |[|x0 [|x1 rest]]|]; try done. simpl.
  destruct (as_number x0) as [lon|]; [|done]. destruct (as_number x1) as [lat|]; [|done].
  simpl. intros Hv.
  apply andb_prop in Hv as [Hv Hlat2]. apply andb_prop in Hv as [Hv Hlat1].
  apply andb_prop in Hv as [Hlon1 Hlon2]. done.
Qed.

(** X11: after validation every coordinate that the algorithms read is a
    number within the bounds: longitude in [-180, 180], latitude in
    [-90, 90], none of them NaN. *)
Theorem validated_coordinates_in_bounds (geometry : json) (i : Z) :
  validate_geojson_linestring geometry = true →
  0 ≤ i < Py.len (geometry_coordinates geometry) →
  (-180 <=? lon_at (geometry_coordinates geometry) i)%float = true
  ∧ (lon_at (geometry_coordinates geometry) i <=? 180)%float = true
  ∧ (-90 <=? lat_at (geometry_coordinates geometry) i)%float = true
  ∧ (lat_at (geometry_coordinates geometry) i <=? 90)%float = true.
Proof.
  intros Hvalid Hi.
  destruct (validate_inv geometry Hvalid) as (fields & cs & -> & _ & Hcs & _ & Hall).
  unfold geometry_coordinates in *. rewrite Hcs in *.
  destruct (lookup_lt_is_Some_2 cs (Z.to_nat i)) as [c Hc]; [unfold Py.len in Hi; lia|].
  unfold lon_at, lat_at. replace i with (Z.of_nat (Z.to_nat i)) by lia.
  rewrite (coord_at_lookup cs (Z.to_nat i) c Hc).
  apply valid_coordinate_inv.
  rewrite forallb_forall in Hall. apply Hall.
  apply list_elem_of_In. by eapply list_elem_of_lookup_2.
Qed.

(** X12: validity only looks at the members ['type'] and ['coordinates'] and
    at the first two entries of each coordinate: any other member and any
    further entry (an altitude) is ignored. *)
Theorem validation_ignores_the_rest (fields : gmap string json) (key : string)
    (value x0 x1 : json) (rest : list json) :
  key ≠ "type" → key ≠ "coordinates" →
  validate_geojson_linestring (JObj (<[key := value]> fields))
  = validate_geojson_linestring (JObj fields)
  ∧ valid_coordinate (JArr (x0 :: x1 :: rest)) = valid_coordinate (JArr [x0; x1]).
Proof.
  intros Htype Hcoords. split; [|done].
  unfold validate_geojson_linestring. by rewrite !lookup_insert_ne.
Qed.

(** Every way a call of the facade can end, with what led to it. *)
Lemma simplify_linestring_inv (fuel : nat) (geojson_geometry : json)
    (max_coordinates : Z) (preserve_corners preserve_curves : bool)
    (min_angle_for_corners curve_detection_threshold : float) :
  match simplify_linestring fuel geojson_geometry max_coordinates preserve_corners
          preserve_curves min_angle_for_corners curve_detection_threshold with
  | Return r =>
      ∃ parsed,
        parse_input geojson_geometry = inr parsed
        ∧ validate_geojson_linestring parsed = true
        ∧ 2 ≤ max_coordinates
        ∧ original_count r = Py.len (geometry_coordinates parsed)
        ∧ ((Py.len (geometry_coordinates parsed) ≤ max_coordinates
            ∧ geometry r = parsed
            ∧ simplified_count r = Py.len (geometry_coordinates parsed)
            ∧ was_sufficient r = true
            ∧ warnings r = [])
           ∨ (max_coordinates < Py.len (geometry_coordinates parsed)
              ∧ _calculate_minimum_required (geometry_coordinates parsed) ≤ max_coordinates
              ∧ ∃ indices sufficient under long,
                  adaptive_simplification fuel (geometry_coordinates parsed)
                    max_coordinates preserve_corners preserve_curves
                  = Some (indices, sufficient)
                  ∧ geometry r
                    = JObj (<["type" := JStr "LineString"]>
                              (<["coordinates" :=
                                   JArr (coord_at (geometry_coordinates parsed) <$> indices)]>
                                 ∅))
                  ∧ simplified_count r = Py.len indices
                  ∧ was_sufficient r = sufficient
                  ∧ warnings r
                    = (if sufficient then [] else [insufficient_warning max_coordinates])
                      ++ under ++ long
                  ∧ (under = [] ∨ ∃ c, under = [underused_warning c max_coordinates])
                  ∧ (long = [] ∨ ∃ x, long = [length_warning x])))
  | Raise e =>
      parse_input geojson_geometry = inl e
      ∨ ∃ parsed,
          parse_input geojson_geometry = inr parsed
          ∧ ((validate_geojson_linestring parsed = false
              ∧ e = InvalidGeometryError "Input must be a valid GeoJSON LineString geometry")
             ∨ (validate_geojson_linestring parsed = true
                ∧ max_coordinates < 2
                ∧ e = InsufficientCoordinatesError
                        "max_coordinates must be at least 2 for a valid LineString"
                        2 max_coordinates)
             ∨ (validate_geojson_linestring parsed = true
                ∧ 2 ≤ max_coordinates < Py.len (geometry_coordinates parsed)
                ∧ max_coordinates < _calculate_minimum_required (geometry_coordinates parsed)
                ∧ ∃ message,
                    e = InsufficientCoordinatesError message
                          (_calculate_minimum_required (geometry_coordinates parsed))
                          max_coordinates))
  | RecursionError =>
      ∃ parsed,
        parse_input geojson_geometry = inr parsed
        ∧ validate_geojson_linestring parsed = true
        ∧ 2 ≤ max_coordinates < Py.len (geometry_coordinates parsed)
        ∧ adaptive_simplification fuel (geometry_coordinates parsed) max_coordinates
            preserve_corners preserve_curves = None
  end.
Proof.
  unfold simplify_linestring.
  destruct (parse_input geojson_geometry) as [e|parsed]; [by left|].
  destruct (validate_geojson_linestring parsed) eqn:Hvalid; simpl.
  2:{ right. exists parsed. split; [done|]. by left. }
  case_bool_decide as Hbudget.
  { right. exists parsed. split; [done|]. right. left. done. }
  case_bool_decide as Hearly.
  { exists parsed. simpl. split; [done|]. split; [done|]. split; [lia|]. split; [done|].
    by left. }
  destruct (adaptive_simplification _ _ _ _ _) as [[indices sufficient]|] eqn:Hsel.
  2:{ exists parsed. split; [done|]. split; [done|]. split; [lia|done]. }
  case_bool_decide as Hmin.
  { right. exists parsed. split; [done|]. right. right.
    split; [done|]. split; [lia|]. split; [done|]. by eexists. }
  exists parsed. simpl. split; [done|]. split; [done|]. split; [lia|]. split; [done|].
  right. split; [lia|]. split; [lia|].
  eexists indices, sufficient, _, _.
  split; [done|]. split; [done|].
  split; [unfold Py.len; by rewrite length_fmap|]. split; [done|]. split; [done|].
  split; case_match; eauto.
Qed.

(** The estimate of the minimum: the count itself up to two points, and
    from three points on between [min(5, len)] and [len]. *)
Lemma minimum_required_bounds (coordinates : list json) :
  (Py.len coordinates ≤ 2 → _calculate_minimum_required coordinates = Py.len coordinates)
  ∧ (3 ≤ Py.len coordinates →
     Z.min 5 (Py.len coordinates) ≤ _calculate_minimum_required coordinates
     ≤ Py.len coordinates).
Proof.
  unfold _calculate_minimum_required. case_bool_decide; split; intros; lia.
Qed.

(** X13: [InvalidGeometryError] is raised exactly when the input does not
    decode or does not validate, whatever the budget and the flags: the
    geometry is checked before the budget. *)
Theorem simplify_invalid_geometry (fuel : nat) (geojson_geometry : json)
    (max_coordinates : Z) (preserve_corners preserve_curves : bool)
    (min_angle_for_corners curve_detection_threshold : float) :
  (∃ message,
     simplify_linestring fuel geojson_geometry max_coordinates preserve_corners
       preserve_curves min_angle_for_corners curve_detection_threshold
     = Raise (InvalidGeometryError message))
  ↔ (∃ e, parse_input geojson_geometry = inl e)
    ∨ (∃ parsed, parse_input geojson_geometry = inr parsed
                 ∧ validate_geojson_linestring parsed = false).
Proof.
  split.
  - intros [message Hraise].
    pose proof (simplify_linestring_inv fuel geojson_geometry max_coordinates
                  preserve_corners preserve_curves min_angle_for_corners
                  curve_detection_threshold) as Hinv.
    rewrite Hraise in Hinv.
    destruct Hinv as [Hparse|(parsed & Hparse & [[Hv _]|[(_ & _ & He)|(_ & _ & _ & m & He)]])];
      [left; by eexists|right; by exists parsed|done..].
  - unfold simplify_linestring.
    intros [[e Hparse]|(parsed & Hparse & Hvalid)]; rewrite Hparse.
    + unfold parse_input in Hparse.
      destruct geojson_geometry; try done. destruct (json_loads s); [done|].
      injection Hparse as <-. by eexists.
    + rewrite Hvalid. by eexists.
Qed.


(** X15: the fields of [InsufficientCoordinatesError]: [provided_limit] is
    the budget, [minimum_required] is above it, at least 2 and at most the
    number of coordinates of the input. *)
Theorem insufficient_error_fields (fuel : nat) (geojson_geometry parsed : json)
    (max_coordinates : Z) (preserve_corners preserve_curves : bool)
    (min_angle_for_corners curve_detection_threshold : float)
    (message : string) (minimum_required provided_limit : Z) :
  parse_input geojson_geometry = inr parsed →
  simplify_linestring fuel geojson_geometry max_coordinates preserve_corners
    preserve_curves min_angle_for_corners curve_detection_threshold
  = Raise (InsufficientCoordinatesError message minimum_required provided_limit) →
  provided_limit = max_coordinates
  ∧ max_coordinates < minimum_required
  ∧ 2 ≤ minimum_required ≤ Py.len (geometry_coordinates parsed).
Proof.
  intros Hparse Hraise.
  pose proof (simplify_linestring_inv fuel geojson_geometry max_coordinates
                preserve_corners preserve_curves min_angle_for_corners
                curve_detection_threshold) as Hinv.
  rewrite Hraise, Hparse in Hinv.
  destruct Hinv as [?|(parsed' & [= <-]
                       & [[_ ?]|[(Hv & Hlt & He)|(Hv & Hlen & Hmin & m & He)]])]; try done.
  - injection He as _ -> ->. apply validate_len in Hv. lia.
  - injection He as _ -> ->.
    destruct (minimum_required_bounds (geometry_coordinates parsed)) as [_ Hbounds]. lia.
Qed.

Lemma insufficient_warning_not_underused (max_coordinates c : Z) :
  insufficient_warning max_coordinates ≠ underused_warning c max_coordinates.
Proof. unfold insufficient_warning, underused_warning. simpl. by intros [=]. Qed.

Lemma insufficient_warning_not_length (max_coordinates : Z) (x : float) :
  insufficient_warning max_coordinates ≠ length_warning x.
Proof. unfold insufficient_warning, length_warning. simpl. by intros [=]. Qed.

(** X16: the warnings of a result.  There are at most three; the one about
    an insufficient limit is among them exactly when [was_sufficient] is
    [False], and it is then the first. *)
Theorem warnings_tell_sufficiency (fuel : nat) (geojson_geometry : json)
    (max_coordinates : Z) (preserve_corners preserve_curves : bool)
    (min_angle_for_corners curve_detection_threshold : float) (r : result) :
  simplify_linestring fuel geojson_geometry max_coordinates preserve_corners
    preserve_curves min_angle_for_corners curve_detection_threshold = Return r →
  Py.len (warnings r) ≤ 3
  ∧ (insufficient_warning max_coordinates ∈ warnings r ↔ was_sufficient r = false)
  ∧ (was_sufficient r = false →
     head (warnings r) = Some (insufficient_warning max_coordinates)).
Proof.
  intros Hret.
  pose proof (simplify_linestring_inv fuel geojson_geometry max_coordinates
                preserve_corners preserve_curves min_angle_for_corners
                curve_detection_threshold) as Hinv.
  rewrite Hret in Hinv.
  destruct Hinv as (parsed & _ & _ & _ & _
                    & [(_ & _ & _ & -> & ->)
                      |(_ & _ & indices & sufficient & under & long & _ & _ & _ & ->
                        & -> & Hunder & Hlong)]).
  - split; [unfold Py.len; simpl; lia|]. split; [|done].
    split; [intros Hin; by apply elem_of_nil in Hin|done].
  - split; [|split].
    + unfold Py.len. rewrite !length_app.
      destruct sufficient, Hunder as [->|[c ->]], Hlong as [->|[x ->]]; simpl; lia.
    + rewrite !elem_of_app.
      destruct sufficient; simpl.
      * split; [|done]. intros [Hin|[Hin|Hin]]; [by apply elem_of_nil in Hin| |].
        -- destruct Hunder as [->|[c ->]]; [by apply elem_of_nil in Hin|].
           apply elem_of_cons in Hin as [Hin|Hin]; [|by apply elem_of_nil in Hin].
           by apply insufficient_warning_not_underused in Hin.
        -- destruct Hlong as [->|[x ->]]; [by apply elem_of_nil in Hin|].
           apply elem_of_cons in Hin as [Hin|Hin]; [|by apply elem_of_nil in Hin].
           by apply insufficient_warning_not_length in Hin.
      * split; [done|]. intros _. left. left.
    + by intros ->.
Qed.

End FacadeExtras.

(** * What is returned: a valid part of the input *)

Section Returned.
Context `{Externals}.

(** Picking the coordinates at strictly increasing positions gives a
    sub-list of the polyline. *)
Lemma picked_sublist (coordinates : list json) (indices : list Z) (a : nat) :
  StronglySorted Z.le indices → NoDup indices →
  (∀ i, i ∈ indices → Z.of_nat a ≤ i < Py.len coordinates) →
  (coord_at coordinates <$> indices) `sublist_of` drop a coordinates.
Proof.
  intros Hs. revert a.
  induction Hs as [|i rest Hs IH Hall]; intros a Hnd Hr; [apply sublist_nil_l|].
  apply NoDup_cons in Hnd as [Hni Hnd].
  assert (Z.of_nat a ≤ i < Py.len coordinates) as Hi by (apply Hr; left).
  destruct (lookup_lt_is_Some_2 coordinates (Z.to_nat i)) as [x Hx];
    [unfold Py.len in Hi; lia|].
  rewrite fmap_cons. replace (coord_at coordinates i) with x.
  2:{ symmetry. replace i with (Z.of_nat (Z.to_nat i)) by lia. by apply coord_at_lookup. }
  trans (drop (Z.to_nat i) coordinates).
  - rewrite (drop_S _ _ _ Hx). apply sublist_skip. apply IH; [done|].
    intros j Hj. rewrite Forall_forall in Hall. pose proof (Hall j Hj).
    assert (j ≠ i) by (intros ->; done).
    assert (Z.of_nat a ≤ j < Py.len coordinates) by (apply Hr; by right). lia.
  - replace (Z.to_nat i) with (a + (Z.to_nat i - a))%nat by lia.
    rewrite <- drop_drop. apply sublist_drop.
Qed.

(** A geometry built by the facade from valid coordinates is valid. *)
Lemma built_geometry_valid (coordinates : list json) :
  2 ≤ Py.len coordinates → forallb valid_coordinate coordinates = true →
  validate_geojson_linestring
    (JObj (<["type" := JStr "LineString"]> (<["coordinates" := JArr coordinates]> ∅)))
  = true.
Proof.
  intros Hlen Hall. unfold validate_geojson_linestring.
  rewrite lookup_insert_eq. rewrite lookup_insert_ne by done. rewrite lookup_insert_eq.
  simpl. rewrite Hall. by rewrite bool_decide_eq_true_2.
Qed.

(** The geometry of a result: a dictionary that validates, whose
    coordinates are a sub-list of the input's, [simplified_count] of them,
    no more than the budget. *)
Lemma returned_geometry (fuel : nat) (geojson_geometry parsed : json)
    (max_coordinates : Z) (preserve_corners preserve_curves : bool)
    (min_angle_for_corners curve_detection_threshold : float) (r : result) :
  parse_input geojson_geometry = inr parsed →
  simplify_linestring fuel geojson_geometry max_coordinates preserve_corners
    preserve_curves min_angle_for_corners curve_detection_threshold = Return r →
  (∃ fields, geometry r = JObj fields)
  ∧ validate_geojson_linestring (geometry r) = true
  ∧ geometry_coordinates (geometry r) `sublist_of` geometry_coordinates parsed
  ∧ Py.len (geometry_coordinates (geometry r)) = simplified_count r
  ∧ simplified_count r ≤ max_coordinates
  ∧ 2 ≤ max_coordinates
  ∧ (max_coordinates < Py.len (geometry_coordinates parsed) →
     geometry r
     = JObj (<["type" := JStr "LineString"]>
               (<["coordinates" := JArr (geometry_coordinates (geometry r))]> ∅))).
Proof.
  intros Hparse Hret.
  pose proof (simplify_linestring_inv fuel geojson_geometry max_coordinates
                preserve_corners preserve_curves min_angle_for_corners
                curve_detection_threshold) as Hinv.
  rewrite Hret, Hparse in Hinv.
  destruct Hinv as (parsed' & [= <-] & Hvalid & Hbudget & _
                    & [(Hle & -> & -> & _)
                      |(Hlt & _ & indices & sufficient & under & long & Hsel & Hgeo & ->
                        & _)]).
  - destruct (validate_inv parsed Hvalid) as (fields & cs & -> & _).
    split; [by eexists|]. split; [done|]. split; [done|]. split; [done|].
    split; [done|]. split; [done|]. lia.
  - destruct (validate_inv parsed Hvalid) as (fields & cs & Hparsed & _ & Hcs & Hlen & Hall).
    assert (geometry_coordinates parsed = cs) as Hcoords
      by (unfold geometry_coordinates; by rewrite Hparsed, Hcs).
    rewrite Hcoords in *.
    pose proof (adaptive_simplification_count _ _ _ _ _ _ _ Hlen Hbudget Hsel) as Hcount.
    apply adaptive_simplification_shape in Hsel as (_ & _ & Hrange & Hsorted & Hnodup); [|lia].
    assert ((coord_at cs <$> indices) `sublist_of` cs) as Hsub.
    { apply (picked_sublist cs indices 0); [done..|].
      intros i Hi. apply Hrange in Hi. lia. }
    rewrite Hgeo, geometry_coordinates_built.
    split; [by eexists|]. split.
    { apply built_geometry_valid; [unfold Py.len; rewrite length_fmap; apply Hcount|].
      apply forallb_forall. intros x Hx. rewrite forallb_forall in Hall. apply Hall.
      apply list_elem_of_In. apply list_elem_of_In in Hx. by eapply elem_of_sublist. }
    split; [done|]. split; [unfold Py.len; by rewrite length_fmap|].
    split; [lia|]. split; [done|]. done.
Qed.

(** X17: the coordinates of a result are a sub-list of the coordinates of
    the input: no point is moved, added or reordered.  A result with
    fewer points is a fresh dictionary with the two members ['type'] and
    ['coordinates'] only. *)
Theorem simplify_output_sublist (fuel : nat) (geojson_geometry parsed : json)
    (max_coordinates : Z) (preserve_corners preserve_curves : bool)
    (min_angle_for_corners curve_detection_threshold : float) (r : result) :
  parse_input geojson_geometry = inr parsed →
  simplify_linestring fuel geojson_geometry max_coordinates preserve_corners
    preserve_curves min_angle_for_corners curve_detection_threshold = Return r →
  geometry_coordinates (geometry r) `sublist_of` geometry_coordinates parsed
  ∧ (max_coordinates < Py.len (geometry_coordinates parsed) →
     geometry r
     = JObj (<["type" := JStr "LineString"]>
               (<["coordinates" := JArr (geometry_coordinates (geometry r))]> ∅))).
Proof.
  intros Hparse Hret.
  destruct (returned_geometry _ _ _ _ _ _ _ _ _ Hparse Hret)
    as (_ & _ & Hsub & _ & _ & _ & Hfresh).
  done.
Qed.

(** X18: the geometry of a result passes [validate_geojson_linestring]. *)
Theorem simplify_output_valid (fuel : nat) (geojson_geometry : json)
    (max_coordinates : Z) (preserve_corners preserve_curves : bool)
    (min_angle_for_corners curve_detection_threshold : float) (r : result) :
  simplify_linestring fuel geojson_geometry max_coordinates preserve_corners
    preserve_curves min_angle_for_corners curve_detection_threshold = Return r →
  validate_geojson_linestring (geometry r) = true.
Proof.
  intros Hret.
  destruct (parse_input geojson_geometry) as [e|parsed] eqn:Hparse.
  - unfold simplify_linestring in Hret. by rewrite Hparse in Hret.
  - by destruct (returned_geometry _ _ _ _ _ _ _ _ _ Hparse Hret) as (_ & Hvalid & _).
Qed.

(** X19: simplifying the geometry of a result again with the same budget,
    whatever the flags, changes nothing: the second call returns it as it
    is, with ratio 0.0, length 100.0, no warning and [was_sufficient]. *)
Theorem simplify_again (fuel fuel' : nat) (geojson_geometry : json)
    (max_coordinates : Z) (preserve_corners preserve_curves corners' curves' : bool)
    (min_angle_for_corners curve_detection_threshold angle' threshold' : float)
    (r : result) :
  simplify_linestring fuel geojson_geometry max_coordinates preserve_corners
    preserve_curves min_angle_for_corners curve_detection_threshold = Return r →
  simplify_linestring fuel' (geometry r) max_coordinates corners' curves' angle' threshold'
  = Return {| geometry := geometry r;
              original_count := simplified_count r;
              simplified_count := simplified_count r;
              reduction_ratio := 0;
              length_preserved := 100;
              warnings := [];
              was_sufficient := true |}.
Proof.
  intros Hret.
  destruct (parse_input geojson_geometry) as [e|parsed] eqn:Hparse.
  { unfold simplify_linestring in Hret. by rewrite Hparse in Hret. }
  destruct (returned_geometry _ _ _ _ _ _ _ _ _ Hparse Hret)
    as ([fields Hfields] & Hvalid & _ & Hlen & Hle & Hbudget & _).
  unfold simplify_linestring. rewrite Hfields. cbn [parse_input].
  rewrite <- Hfields, Hvalid. simpl.
  rewrite bool_decide_eq_false_2 by lia. rewrite bool_decide_eq_true_2 by lia.
  by rewrite Hlen.
Qed.

(** X20: the preview of an input that does not decode or does not validate
    returns, at any depth, a dictionary that holds under every limit the
    same [InvalidGeometryError] failure. *)
Theorem preview_of_invalid_geometry (fuel : nat) (geojson_geometry : json)
    (max_coordinates_options : list Z) :
  (∃ e, parse_input geojson_geometry = inl e)
  ∨ (∃ parsed, parse_input geojson_geometry = inr parsed
               ∧ validate_geojson_linestring parsed = false) →
  ∃ message results,
    get_simplification_preview fuel geojson_geometry max_coordinates_options
    = Some results
    ∧ (∀ limit, limit ∈ max_coordinates_options →
         results !! limit = Some (Failure message "InvalidGeometryError"))
    ∧ (∀ limit, limit ∉ max_coordinates_options → results !! limit = None).
Proof.
  intros Hbad.
  assert (∃ message, ∀ limit,
            simplify_linestring fuel geojson_geometry limit true true 30 45
            = Raise (InvalidGeometryError message)) as [message Hraise].
  { unfold simplify_linestring.
    destruct Hbad as [[e Hparse]|(parsed & Hparse & Hvalid)]; rewrite Hparse.
    - unfold parse_input in Hparse.
      destruct geojson_geometry; try done. destruct (json_loads s); [done|].
      injection Hparse as <-. by eexists.
    - rewrite Hvalid. by eexists. }
  destruct (preview_loop_entries fuel geojson_geometry max_coordinates_options ∅)
    as (results & Hloop & Hin & Hout).
  { intros limit _. by rewrite Hraise. }
  exists message, results. split; [done|]. split.
  - intros limit Hlimit. rewrite (Hin limit Hlimit), Hraise. done.
  - intros limit Hlimit. by rewrite (Hout limit Hlimit).
Qed.

End Returned.

(** * validate_geometry *)

Section AnalysisFacts.
Context `{Externals}.

(** What [validate_geometry] does with the decoded input. *)
Lemma validate_geometry_cases (geojson_geometry : json) :
  match parse_input geojson_geometry with
  | inl e => ∃ error, validate_geometry geojson_geometry
                      = Analysis (Rejected error JNull 0 0)
  | inr parsed =>
      if validate_geojson_linestring parsed then
        validate_geometry geojson_geometry
        = Analysis
            (Analysed (Py.len (geometry_coordinates parsed))
                      (calculate_linestring_length (geometry_coordinates parsed))
                      (_calculate_minimum_required (geometry_coordinates parsed))
                      (Py.len (detect_corners (geometry_coordinates parsed) 30))
                      (Py.len (detect_curves (geometry_coordinates parsed) 5 45))
                      (if bool_decide (0 < Py.len (geometry_coordinates parsed))
                       then (Py.to_float
                               (Py.len (detect_corners (geometry_coordinates parsed) 30)
                                + Py.len (detect_curves (geometry_coordinates parsed) 5 45))
                             / Py.to_float (Py.len (geometry_coordinates parsed)))%float
                       else 0%float))
      else
        match parsed with
        | JObj fields =>
            validate_geometry geojson_geometry
            = Analysis (Rejected "Invalid GeoJSON LineString geometry"
                                 (default JNull (fields !! "type")) 0 0)
        | _ => validate_geometry geojson_geometry = AttributeError
        end
  end.
Proof.
  unfold validate_geometry, parse_input.
  destruct geojson_geometry as [| | |text| |]; simpl;
    try done; try (case_match; done).
  destruct (json_loads text) as [geometry|e]; [|by eexists].
  destruct (validate_geojson_linestring geometry); simpl; [done|].
  by destruct geometry.
Qed.

(** X21: [validate_geometry] raises [AttributeError] exactly when the
    input, decoded if it is a string, is not a dictionary: a list, a
    number, a boolean, [None] or a string get no report. *)
Theorem validate_geometry_attribute_error (geojson_geometry : json) :
  validate_geometry geojson_geometry = AttributeError
  ↔ ∃ parsed, parse_input geojson_geometry = inr parsed
              ∧ ∀ fields, parsed ≠ JObj fields.
Proof.
  pose proof (validate_geometry_cases geojson_geometry) as Hcases.
  destruct (parse_input geojson_geometry) as [e|parsed].
  - destruct Hcases as [error ->]. split; [done|]. by intros (? & ? & _).
  - destruct (validate_geojson_linestring parsed) eqn:Hvalid.
    + rewrite Hcases. split; [done|]. intros (p & [= <-] & Hnot).
      destruct (validate_inv parsed Hvalid) as (fields & ? & -> & _).
      by destruct (Hnot fields).
    + destruct parsed; rewrite Hcases;
        try (split; [intros _; eexists; split; [done|]; by intros|done]).
      split; [done|]. intros (p & [= <-] & Hnot). by destruct (Hnot fields).
Qed.

(** X22: [validate_geometry] reports a valid geometry exactly when
    [simplify_linestring] does not raise [InvalidGeometryError], whatever
    the budget. *)
Theorem analysis_agrees_with_facade (fuel : nat) (geojson_geometry : json)
    (max_coordinates : Z) (preserve_corners preserve_curves : bool)
    (min_angle_for_corners curve_detection_threshold : float) :
  (∃ count length minimum corners curves score,
     validate_geometry geojson_geometry
     = Analysis (Analysed count length minimum corners curves score))
  ↔ ¬ ∃ message,
        simplify_linestring fuel geojson_geometry max_coordinates preserve_corners
          preserve_curves min_angle_for_corners curve_detection_threshold
        = Raise (InvalidGeometryError message).
Proof.
  pose proof (validate_geometry_cases geojson_geometry) as Hcases.
  pose proof (simplify_linestring_inv fuel geojson_geometry max_coordinates
                preserve_corners preserve_curves min_angle_for_corners
                curve_detection_threshold) as Hinv.
  unfold simplify_linestring in *.
  destruct (parse_input geojson_geometry) as [e|parsed] eqn:Hparse.
  - destruct Hcases as [error ->]. split; [by intros (? & ? & ? & ? & ? & ? & ?)|].
    intros Hnot. destruct Hnot.
    unfold parse_input in Hparse.
    destruct geojson_geometry; try done. destruct (json_loads s); [done|].
    injection Hparse as <-. by eexists.
  - destruct (validate_geojson_linestring parsed) eqn:Hvalid; simpl in *.
    + rewrite Hcases. split; [|intros _; by repeat eexists].
      intros _ [message Hraise]. rewrite Hraise in Hinv.
      destruct Hinv as [?|(p & [= <-] & [[? _]|[(_ & _ & ?)|(_ & _ & _ & ? & ?)]])];
        congruence.
    + split.
      * intros (? & ? & ? & ? & ? & ? & Heq). destruct parsed; by rewrite Hcases in Heq.
      * intros Hnot. destruct Hnot. by eexists.
Qed.

(** X23: the figures of a report on a valid geometry: at least two
    coordinates; a minimum between 2 and the count; between 2 and the count
    corners; at most the count curve points. *)
Theorem analysis_figures (geojson_geometry : json) (count : Z) (length : float)
    (minimum corners curves : Z) (score : float) :
  validate_geometry geojson_geometry
  = Analysis (Analysed count length minimum corners curves score) →
  2 ≤ count
  ∧ 2 ≤ minimum ≤ count
  ∧ 2 ≤ corners ≤ count
  ∧ 0 ≤ curves ≤ count.
Proof.
  intros Hreport.
  pose proof (validate_geometry_cases geojson_geometry) as Hcases.
  destruct (parse_input geojson_geometry) as [e|parsed].
  { destruct Hcases as [error Heq]. by rewrite Heq in Hreport. }
  destruct (validate_geojson_linestring parsed) eqn:Hvalid.
  2:{ destruct parsed; by rewrite Hcases in Hreport. }
  rewrite Hcases in Hreport. injection Hreport as <- _ <- <- <- _.
  apply validate_len in Hvalid.
  destruct (minimum_required_bounds (geometry_coordinates parsed)) as [Hfew Hmany].
  split; [done|]. split; [|split].
  - destruct (decide (Py.len (geometry_coordinates parsed) ≤ 2)); [rewrite Hfew; lia|lia].
  - by apply detect_corners_count.
  - by apply detect_curves_count.
Qed.

(** X24: the minimum that [validate_geometry] reports is the least budget
    that [simplify_linestring] takes: with a budget of at least 2, a call
    with the minimum or more raises no error, and a call with less returns
    no result. *)
Theorem analysis_minimum_is_the_threshold (fuel : nat) (geojson_geometry : json)
    (max_coordinates : Z) (preserve_corners preserve_curves : bool)
    (min_angle_for_corners curve_detection_threshold : float)
    (count : Z) (length : float) (minimum corners curves : Z) (score : float) :
  validate_geometry geojson_geometry
  = Analysis (Analysed count length minimum corners curves score) →
  2 ≤ max_coordinates →
  (minimum ≤ max_coordinates →
   ∀ e, simplify_linestring fuel geojson_geometry max_coordinates preserve_corners
          preserve_curves min_angle_for_corners curve_detection_threshold ≠ Raise e)
  ∧ (max_coordinates < minimum →
     ∀ r, simplify_linestring fuel geojson_geometry max_coordinates preserve_corners
            preserve_curves min_angle_for_corners curve_detection_threshold ≠ Return r).
Proof.
  intros Hreport Hbudget.
  pose proof (validate_geometry_cases geojson_geometry) as Hcases.
  pose proof (simplify_linestring_inv fuel geojson_geometry max_coordinates
                preserve_corners preserve_curves min_angle_for_corners
                curve_detection_threshold) as Hinv.
  destruct (parse_input geojson_geometry) as [e|parsed].
  { destruct Hcases as [error Heq]. by rewrite Heq in Hreport. }
  destruct (validate_geojson_linestring parsed) eqn:Hvalid.
  2:{ destruct parsed; by rewrite Hcases in Hreport. }
  rewrite Hcases in Hreport. injection Hreport as <- _ <- <- <- _.
  destruct (minimum_required_bounds (geometry_coordinates parsed)) as [Hfew Hmany].
  split.
  - intros Hmin e Hraise. rewrite Hraise in Hinv.
    destruct Hinv as [?|(p & [= <-] & [[? _]|[(_ & ? & _)|(_ & _ & ? & _)]])];
      [done|congruence|lia|lia].
  - intros Hmin r Hret. rewrite Hret in Hinv.
    destruct Hinv as (p & [= <-] & _ & _ & _ & [(Hle & _)|(_ & ? & _)]); [|lia].
    destruct (decide (Py.len (geometry_coordinates parsed) ≤ 2)); [rewrite Hfew in Hmin; lia|lia].
Qed.

End AnalysisFacts.

(** * The loops of calculate_bearing_change *)

Section BearingLoops.

Lemma wind_up_result (fuel : nat) (change r : float) :
  Normalize.wind_up fuel change = Some r → (r <? -180)%float = false.
Proof.
  revert change. induction fuel as [|fuel IH]; intros change; [done|]. simpl.
  destruct (change <? -180)%float eqn:Hc; [apply IH|]. by intros [= <-].
Qed.

(** X25: a value returned by [calculate_bearing_change] is never below
    -180; and a difference that is neither above 180 nor below -180 (a NaN
    among them) is returned as it is, after no pass of either loop. *)
Theorem bearing_change_result (fuel : nat) (bearing1 bearing2 r : float) :
  Normalize.calculate_bearing_change fuel bearing1 bearing2 = Some r →
  (r <? -180)%float = false
  ∧ ((180 <? bearing2 - bearing1)%float = false →
     (bearing2 - bearing1 <? -180)%float = false →
     r = (bearing2 - bearing1)%float).
Proof.
  unfold Normalize.calculate_bearing_change.
  destruct (Normalize.wind_down fuel (bearing2 - bearing1)) as [change|] eqn:Hdown; [|done].
  simpl. intros Hup. split; [by eapply wind_up_result|].
  intros Hhigh Hlow. destruct fuel as [|fuel]; [done|]. simpl in Hdown, Hup.
  rewrite Hhigh in Hdown. injection Hdown as <-. rewrite Hlow in Hup. by injection Hup.
Qed.

(** X26: a difference above 180 that subtracting 360 leaves unchanged
    (an infinity, or a float too large to feel 360) keeps the first loop
    running for ever; likewise below -180 for the second loop. *)
Theorem bearing_change_never_returns (fuel : nat) (bearing1 bearing2 : float) :
  ((180 <? bearing2 - bearing1)%float = true
   ∧ (bearing2 - bearing1 - 360)%float = (bearing2 - bearing1)%float)
  ∨ ((bearing2 - bearing1 <? -180)%float = true
     ∧ (bearing2 - bearing1 + 360)%float = (bearing2 - bearing1)%float) →
  Normalize.calculate_bearing_change fuel bearing1 bearing2 = None.
Proof.
  unfold Normalize.calculate_bearing_change.
  set (d := (bearing2 - bearing1)%float). intros [[Hhigh Hfix]|[Hlow Hfix]].
  - assert (Normalize.wind_down fuel d = None) as ->; [|done].
    induction fuel as [|fuel IH]; [done|]. simpl. by rewrite Hhigh, Hfix.
  - assert (Normalize.wind_up fuel d = None) as Hup.
    { induction fuel as [|fuel IH]; [done|]. simpl. by rewrite Hlow, Hfix. }
    destruct fuel as [|fuel]; [done|]. cbn [Normalize.wind_down].
    destruct (180 <? d)%float eqn:Hhigh.
    + pose proof (ltb_trans _ _ _ Hhigh Hlow) as Habs. vm_compute in Habs. done.
    + simpl. exact Hup.
Qed.

End BearingLoops.

(** * More sample runs on the grid instance *)

(** Between the indices 0 and 5 kept at tolerance 1, the point 3 is no
    farther than 1 from the segment. *)
Lemma douglas_peucker_within_tolerance_witness :
  (1 <? segment_distance (H := Grid.externals) Grid.bump 0 5 3)%float = false.
Proof.
  apply (douglas_peucker_within_tolerance (H := Grid.externals) 12 Grid.bump 1
           [0; 5; 6; 7; 11] 0 0 5 3);
    [vm_compute; reflexivity | reflexivity | reflexivity | lia].
Defined.

(** From tolerance 1 to tolerance 100 on the 12-point path. *)
Lemma douglas_peucker_tolerance_monotone_witness :
  ∃ indices2,
    douglas_peucker (H := Grid.externals) 12 Grid.bump 100 = Some indices2
    ∧ (∀ i, i ∈ indices2 → i ∈ [0; 5; 6; 7; 11])
    ∧ Py.len indices2 ≤ Py.len [0; 5; 6; 7; 11].
Proof.
  apply (douglas_peucker_tolerance_monotone (H := Grid.externals) 12 Grid.bump 1 100
           [0; 5; 6; 7; 11]);
    [reflexivity | vm_compute; reflexivity].
Defined.

(** Eleven segments, a depth of 11. *)
Lemma douglas_peucker_depth_witness :
  ∃ indices, douglas_peucker (H := Grid.externals) 11 Grid.bump 1 = Some indices.
Proof.
  apply (douglas_peucker_depth (H := Grid.externals) 11 Grid.bump 1);
    [reflexivity | lia | vm_compute; discriminate].
Defined.

(** Three points in a line and the tolerance -1. *)
Lemma douglas_peucker_negative_tolerance_witness :
  douglas_peucker (H := Grid.externals) 1000
    [Grid.pt 0 0; Grid.pt 1 0; Grid.pt 2 0] (-1) = None.
Proof.
  apply (douglas_peucker_negative_tolerance (H := Grid.externals) 1000
           [Grid.pt 0 0; Grid.pt 1 0; Grid.pt 2 0] (-1));
    [vm_compute; reflexivity | reflexivity |].
  intros i Hi. assert (i = 1) as -> by (unfold Py.len in Hi; cbn [length] in Hi; lia).
  vm_compute. reflexivity.
Defined.

(** A point at distance 2 and the tolerance 5. *)
Lemma douglas_peucker_all_within_witness :
  douglas_peucker (H := Grid.externals) 1 [Grid.pt 0 0; Grid.pt 1 1; Grid.pt 2 0] 5
  = Some [0; 2].
Proof.
  apply (douglas_peucker_all_within (H := Grid.externals) 1
           [Grid.pt 0 0; Grid.pt 1 1; Grid.pt 2 0] 5);
    [vm_compute; reflexivity | lia | reflexivity |].
  intros i Hi. assert (i = 1) as -> by (unfold Py.len in Hi; cbn [length] in Hi; lia).
  vm_compute. reflexivity.
Defined.

(** The corners at 60 degrees among the corners at 30 degrees. *)
Lemma detect_corners_threshold_monotone_witness :
  detect_corners (H := Grid.externals) Grid.bump 60
  `sublist_of` detect_corners (H := Grid.externals) Grid.bump 30.
Proof.
  apply (detect_corners_threshold_monotone (H := Grid.externals) Grid.bump 30 60).
  reflexivity.
Defined.

Lemma detect_corners_shape_witness :
  StronglySorted Z.le (detect_corners (H := Grid.externals) Grid.bump 30)
  ∧ NoDup (detect_corners (H := Grid.externals) Grid.bump 30)
  ∧ head (detect_corners (H := Grid.externals) Grid.bump 30) = Some 0
  ∧ last (detect_corners (H := Grid.externals) Grid.bump 30) = Some (Py.len Grid.bump - 1)
  ∧ 2 ≤ Py.len (detect_corners (H := Grid.externals) Grid.bump 30) ≤ Py.len Grid.bump.
Proof.
  apply (detect_corners_shape (H := Grid.externals) Grid.bump 30).
  vm_compute. discriminate.
Defined.

Lemma detect_curves_threshold_monotone_witness :
  detect_curves (H := Grid.externals) Grid.bump 5 90
  `sublist_of` detect_curves (H := Grid.externals) Grid.bump 5 45.
Proof.
  apply (detect_curves_threshold_monotone (H := Grid.externals) Grid.bump 5 45 90).
  reflexivity.
Defined.

Lemma detect_curves_shape_witness :
  StronglySorted Z.le (detect_curves (H := Grid.externals) Grid.bump 5 45)
  ∧ NoDup (detect_curves (H := Grid.externals) Grid.bump 5 45)
  ∧ (∀ i, i ∈ detect_curves (H := Grid.externals) Grid.bump 5 45 →
          0 ≤ i < Py.len Grid.bump)
  ∧ Py.len (detect_curves (H := Grid.externals) Grid.bump 5 45) ≤ Py.len Grid.bump.
Proof.
  apply (detect_curves_shape (H := Grid.externals) Grid.bump 5 45). lia.
Defined.

(** The five critical indices of the 12-point path under a budget of 7. *)
Lemma selector_keeps_critical_witness :
  Forall (λ i, i ∈ [0; 5; 6; 7; 11]) (detect_corners (H := Grid.externals) Grid.bump 30).
Proof.
  apply Forall_forall.
  apply (selector_keeps_critical (H := Grid.externals) 12 Grid.bump 7 true true
           [0; 5; 6; 7; 11] false);
    [vm_compute; reflexivity | vm_compute; discriminate | vm_compute; reflexivity
    | reflexivity].
Defined.

Lemma validated_coordinates_in_bounds_witness :
  (-180 <=? lon_at (geometry_coordinates (Grid.line_string Grid.bump)) 6)%float = true
  ∧ (lon_at (geometry_coordinates (Grid.line_string Grid.bump)) 6 <=? 180)%float = true
  ∧ (-90 <=? lat_at (geometry_coordinates (Grid.line_string Grid.bump)) 6)%float = true
  ∧ (lat_at (geometry_coordinates (Grid.line_string Grid.bump)) 6 <=? 90)%float = true.
Proof.
  apply (validated_coordinates_in_bounds (Grid.line_string Grid.bump) 6);
    [vm_compute; reflexivity | vm_compute; split; [discriminate|reflexivity]].
Defined.

(** A bounding box beside the coordinates, an altitude beside a point. *)
Lemma validation_ignores_the_rest_witness :
  validate_geojson_linestring
    (JObj (<["bbox" := JArr []]> (<["type" := JStr "LineString"]> ∅)))
  = validate_geojson_linestring (JObj (<["type" := JStr "LineString"]> ∅))
  ∧ valid_coordinate (JArr [JNum 1; JNum 2; JNum 3]) = valid_coordinate (JArr [JNum 1; JNum 2]).
Proof.
  apply (validation_ignores_the_rest (<["type" := JStr "LineString"]> ∅) "bbox"
           (JArr []) (JNum 1) (JNum 2) [JNum 3]); discriminate.
Defined.


(** The staircase with a budget of 5: eight points are required. *)
Lemma insufficient_error_fields_witness :
  ∃ message,
    simplify_linestring (H := Grid.externals) 12 (Grid.line_string Grid.staircase) 5
      true true 30 45 = Raise (InsufficientCoordinatesError message 8 5).
Proof.
  destruct (simplify_linestring (H := Grid.externals) 12 (Grid.line_string Grid.staircase) 5
              true true 30 45) as [r|[m|m minimum limit]|] eqn:Hr;
    try (vm_compute in Hr; discriminate).
  destruct (insufficient_error_fields (H := Grid.externals) 12
              (Grid.line_string Grid.staircase) (Grid.line_string Grid.staircase) 5
              true true 30 45 m minimum limit eq_refl Hr) as (-> & _ & _).
  assert (minimum = 8) as -> by (vm_compute in Hr; by injection Hr).
  by exists m.
Defined.

(** The 12-point path with a budget of 7: five points, not sufficient. *)
Lemma warnings_tell_sufficiency_witness :
  ∃ r, simplify_linestring (H := Grid.externals) 12 (Grid.line_string Grid.bump) 7
         true true 30 45 = Return r
       ∧ head (warnings r) = Some (insufficient_warning 7).
Proof.
  destruct (simplify_linestring (H := Grid.externals) 12 (Grid.line_string Grid.bump) 7
              true true 30 45) as [r|e|] eqn:Hr.
  - exists r. split; [done|].
    apply (warnings_tell_sufficiency (H := Grid.externals) 12
             (Grid.line_string Grid.bump) 7 true true 30 45 r Hr).
    vm_compute in Hr. injection Hr as <-. reflexivity.
  - vm_compute in Hr. discriminate.
  - vm_compute in Hr. discriminate.
Defined.

Lemma simplify_output_sublist_witness :
  ∃ r, simplify_linestring (H := Grid.externals) 12 (Grid.line_string Grid.bump) 5
         true true 30 45 = Return r
       ∧ geometry_coordinates (geometry r) `sublist_of` Grid.bump.
Proof.
  destruct (simplify_linestring (H := Grid.externals) 12 (Grid.line_string Grid.bump) 5
              true true 30 45) as [r|e|] eqn:Hr.
  - exists r. split; [done|].
    apply (simplify_output_sublist (H := Grid.externals) 12 (Grid.line_string Grid.bump)
             (Grid.line_string Grid.bump) 5 true true 30 45 r eq_refl Hr).
  - vm_compute in Hr. discriminate.
  - vm_compute in Hr. discriminate.
Defined.

Lemma simplify_output_valid_witness :
  ∃ r, simplify_linestring (H := Grid.externals) 12 (Grid.line_string Grid.bump) 5
         true true 30 45 = Return r
       ∧ validate_geojson_linestring (geometry r) = true.
Proof.
  destruct (simplify_linestring (H := Grid.externals) 12 (Grid.line_string Grid.bump) 5
              true true 30 45) as [r|e|] eqn:Hr.
  - exists r. split; [done|].
    apply (simplify_output_valid (H := Grid.externals) 12 (Grid.line_string Grid.bump)
             5 true true 30 45 r Hr).
  - vm_compute in Hr. discriminate.
  - vm_compute in Hr. discriminate.
Defined.

Lemma simplify_again_witness :
  ∃ r, simplify_linestring (H := Grid.externals) 12 (Grid.line_string Grid.bump) 5
         true true 30 45 = Return r
       ∧ simplify_linestring (H := Grid.externals) 0 (geometry r) 5 false false 30 45
         = Return {| geometry := geometry r;
                     original_count := simplified_count r;
                     simplified_count := simplified_count r;
                     reduction_ratio := 0;
                     length_preserved := 100;
                     warnings := [];
                     was_sufficient := true |}.
Proof.
  destruct (simplify_linestring (H := Grid.externals) 12 (Grid.line_string Grid.bump) 5
              true true 30 45) as [r|e|] eqn:Hr.
  - exists r. split; [done|].
    apply (simplify_again (H := Grid.externals) 12 0 (Grid.line_string Grid.bump)
             5 true true false false 30 45 30 45 r Hr).
  - vm_compute in Hr. discriminate.
  - vm_compute in Hr. discriminate.
Defined.

(** The preview of a point geometry. *)
Lemma preview_of_invalid_geometry_witness :
  ∃ message results,
    get_simplification_preview (H := Grid.externals) 0
      (JObj (<["type" := JStr "Point"]> ∅)) [1; 5; 20] = Some results
    ∧ (∀ limit, limit ∈ [1; 5; 20] →
         results !! limit = Some (Failure message "InvalidGeometryError"))
    ∧ (∀ limit, limit ∉ [1; 5; 20] → results !! limit = None).
Proof.
  apply (preview_of_invalid_geometry (H := Grid.externals) 0
           (JObj (<["type" := JStr "Point"]> ∅)) [1; 5; 20]).
  right. exists (JObj (<["type" := JStr "Point"]> ∅)).
  split; [reflexivity | vm_compute; reflexivity].
Defined.

(** The report on the 12-point path. *)
Lemma analysis_figures_witness :
  validate_geometry (H := Grid.externals) (Grid.line_string Grid.bump)
  = Analysis (Analysed 12 21 5 5 2 (Py.to_float 7 / Py.to_float 12)%float)
  ∧ 2 ≤ 12 ∧ 2 ≤ 5 ≤ 12 ∧ 2 ≤ 5 ≤ 12 ∧ 0 ≤ 2 ≤ 12.
Proof.
  assert (validate_geometry (H := Grid.externals) (Grid.line_string Grid.bump)
          = Analysis (Analysed 12 21 5 5 2 (Py.to_float 7 / Py.to_float 12)%float)) as Hreport
    by (vm_compute; reflexivity).
  split; [done|].
  exact (analysis_figures (H := Grid.externals) (Grid.line_string Grid.bump)
           12 21 5 5 2 (Py.to_float 7 / Py.to_float 12)%float Hreport).
Defined.

(** A minimum of 5 is reported for the 12-point path: a budget of 4
    gives no result, a budget of 5 raises no error. *)
Lemma analysis_minimum_is_the_threshold_witness :
  validate_geometry (H := Grid.externals) (Grid.line_string Grid.bump)
  = Analysis (Analysed 12 21 5 5 2 (Py.to_float 7 / Py.to_float 12)%float)
  ∧ (∀ r, simplify_linestring (H := Grid.externals) 12 (Grid.line_string Grid.bump) 4
            true true 30 45 ≠ Return r).
Proof.
  assert (validate_geometry (H := Grid.externals) (Grid.line_string Grid.bump)
          = Analysis (Analysed 12 21 5 5 2 (Py.to_float 7 / Py.to_float 12)%float)) as Hreport
    by (vm_compute; reflexivity).
  split; [done|].
  apply (analysis_minimum_is_the_threshold (H := Grid.externals) 12
           (Grid.line_string Grid.bump) 4 true true 30 45
           12 21 5 5 2 (Py.to_float 7 / Py.to_float 12)%float Hreport); lia.
Defined.

(** From a bearing of 350 to a bearing of 10: 20 degrees. *)
Lemma bearing_change_result_witness :
  Normalize.calculate_bearing_change 3 350 10 = Some 20%float
  ∧ (20 <? -180)%float = false.
Proof.
  assert (Normalize.calculate_bearing_change 3 350 10 = Some 20%float) as Hrun
    by (vm_compute; reflexivity).
  split; [done|].
  exact (proj1 (bearing_change_result 3 350 10 20 Hrun)).
Defined.

(** A difference of 1e300: a thousand passes and still looping. *)
Lemma bearing_change_never_returns_witness :
  Normalize.calculate_bearing_change 1000 0 1e300 = None.
Proof.
  apply (bearing_change_never_returns 1000 0 1e300).
  left. split; vm_compute; reflexivity.
Defined.
